(** * tcpedit/edit_packet.c: packet field rewriting

    A shallow embedding of the address transforms, the TTL and length
    rewriters, the CIDR chain walkers for IPv4, IPv6 and ARP, the checksum
    drivers and the layer 7 extractor of [src/tcpedit/edit_packet.c], with
    the properties of the specification stated over it, followed by further
    properties read off the code.

    Conventions.
    - A C integer is a [Z]; every operation that can leave the range of its
      C type has the wrap-around written out ([u8], [u16], [u32], [s32]).
    - A multi-byte header field holds the value the host loads from memory;
      [htonl]/[ntohl]/[htons]/[ntohs] depend on the byte order of the host,
      which is the section variable [big_endian].
    - A C function that can run into undefined behaviour (a null pointer, an
      index outside its array, a shift count outside [0, 31]) returns a
      [result]: [Ok v] for a normal return, [Fault] where C gives the
      execution no meaning, [Exit] where the code calls [errx]. *)

From Stdlib Require Import ZArith List Bool Lia.
Import ListNotations.
Local Open Scope Z_scope.

(** ** C integer types *)

Definition u8 (x : Z) : Z := x mod 256.
Definition u16 (x : Z) : Z := x mod 65536.
Definition u32 (x : Z) : Z := x mod 4294967296.

(** [int]: 32 bits, two's complement. *)
Definition s32 (x : Z) : Z := (x + 2147483648) mod 4294967296 - 2147483648.

(** ** Outcomes of a C function *)

Inductive result (A : Type) : Type :=
| Ok (a : A)
| Fault
| Exit.

Arguments Ok {A} a.
Arguments Fault {A}.
Arguments Exit {A}.

Definition bind {A B : Type} (r : result A) (k : A -> result B) : result B :=
  match r with
  | Ok a => k a
  | Fault => Fault
  | Exit => Exit
  end.

Notation "x <- r ;; k" := (bind r (fun x => k))
  (at level 61, r at next level, right associativity).

(** [E1 << E2] and [E1 >> E2]: undefined when [E2] is negative or not less
    than the width of the promoted [E1] (32 bits for [uint32_t] and [int]).
    For a signed left operand the in-range cases follow gcc and clang, which
    shift the two's complement representation. *)
Definition shift_count_ok (n : Z) : bool := (0 <=? n) && (n <? 32).

Definition shl_u32 (x n : Z) : result Z :=
  if shift_count_ok n then Ok (u32 (Z.shiftl x n)) else Fault.

Definition shl_int (x n : Z) : result Z :=
  if shift_count_ok n then Ok (s32 (Z.shiftl x n)) else Fault.

Definition shr_int (x n : Z) : result Z :=
  if shift_count_ok n then Ok (Z.shiftr x n) else Fault.

(** ** Byte order *)

Definition bswap16 (x : Z) : Z := (x mod 256) * 256 + (x / 256) mod 256.

Definition bswap32 (x : Z) : Z :=
  (x mod 256) * 16777216 + ((x / 256) mod 256) * 65536
  + ((x / 65536) mod 256) * 256 + (x / 16777216) mod 256.

(** Little-endian reading and writing of a byte string. *)
Fixpoint le_combine (l : list Z) : Z :=
  match l with
  | [] => 0
  | b :: l' => b + 256 * le_combine l'
  end.

Fixpoint le_split (n : nat) (x : Z) : list Z :=
  match n with
  | O => []
  | S n' => x mod 256 :: le_split n' (x / 256)
  end.

(** ** Constants of the system and tcpedit headers

    [AF_INET], [AF_INET6] (Linux values), the protocol numbers of
    [netinet/in.h], [IP_OFFMASK] of [netinet/ip.h], and the return codes,
    TTL modes and fixlen modes of [tcpedit.h] and [tcpedit_types.h]. *)

Definition AF_INET : Z := 2.
Definition AF_INET6 : Z := 10.

Definition IPPROTO_IP : Z := 0.
Definition IPPROTO_ICMP : Z := 1.
Definition IPPROTO_TCP : Z := 6.
Definition IPPROTO_UDP : Z := 17.

Definition IP_OFFMASK : Z := 8191.
Definition TCPR_UDP_H : Z := 8.
Definition TCPR_IPV6_H : Z := 40.

Definition TCPEDIT_ERROR : Z := -1.
Definition TCPEDIT_OK : Z := 0.
Definition TCPEDIT_WARN : Z := 1.

Definition TCPEDIT_TTL_MODE_OFF : Z := 0.
Definition TCPEDIT_TTL_MODE_SET : Z := 1.
Definition TCPEDIT_TTL_MODE_ADD : Z := 2.
Definition TCPEDIT_TTL_MODE_SUB : Z := 3.

Definition TCPEDIT_FIXLEN_OFF : Z := 0.
Definition TCPEDIT_FIXLEN_PAD : Z := 1.
Definition TCPEDIT_FIXLEN_TRUNC : Z := 2.
Definition TCPEDIT_FIXLEN_DEL : Z := 3.

Inductive tcpr_dir_t : Type := TCPR_DIR_C2S | TCPR_DIR_S2C.

(** ** Data model *)

(** [struct tcpr_in6_addr]: the 16 bytes [tcpr_s6_addr[0..15]]; the union
    member [__u6_addr32] views them as four host-order words. *)
Definition tcpr_in6_addr : Type := list Z.

Definition in6_addr_ok (a : tcpr_in6_addr) : bool :=
  (length a =? 16)%nat && forallb (fun b => (0 <=? b) && (b <? 256)) a.

(** [tcpr_cidr_t]: [u.network] is the IPv4 network as [inet_aton] stores it
    (network byte order, loaded by the host), [u.network6] the IPv6 one. *)
Record tcpr_cidr_t : Type := mk_cidr {
  family : Z;
  network : Z;
  network6 : tcpr_in6_addr;
  masklen : Z
}.

(** [tcpr_cidrmap_t]: a singly linked list of (from, to) pairs. *)
#[local] Set Warnings "-register-all".
Inductive tcpr_cidrmap_t : Type := mk_cidrmap {
  from : tcpr_cidr_t;
  to : tcpr_cidr_t;
  next : option tcpr_cidrmap_t
}.

(** The fields of [tcpedit_t] this file reads; [l2len] is
    [dlt_ctx->l2len] and [dlt1] is [runtime.dlt1]. *)
Record tcpedit_t : Type := mk_tcpedit {
  seed : Z;
  skip_broadcast : bool;
  ttl_mode : Z;
  ttl_value : Z;
  fixlen : Z;
  mtu : Z;
  mtu_truncate : bool;
  cidrmap1 : option tcpr_cidrmap_t;
  cidrmap2 : option tcpr_cidrmap_t;
  srcipmap : option tcpr_cidrmap_t;
  dstipmap : option tcpr_cidrmap_t;
  l2len : Z;
  dlt1 : Z
}.

(** [struct pcap_pkthdr]: both lengths are [uint32_t]. *)
Record pcap_pkthdr : Type := mk_pkthdr {
  caplen : Z;
  len : Z
}.

(** [ipv4_hdr_t], the fields this file touches. [ip_src] and [ip_dst] are
    the [s_addr] members. *)
Record ipv4_hdr_t : Type := mk_ipv4 {
  ip_hl : Z;
  ip_len : Z;
  ip_off : Z;
  ip_ttl : Z;
  ip_p : Z;
  ip_src : Z;
  ip_dst : Z
}.

(** [ipv6_hdr_t]; in C its members are also called [ip_len], [ip_nh],
    [ip_hl] (the hop limit), [ip_src] and [ip_dst]. *)
Record ipv6_hdr_t : Type := mk_ipv6 {
  ip6_len : Z;
  ip6_nh : Z;
  ip6_hl : Z;
  ip6_src : tcpr_in6_addr;
  ip6_dst : tcpr_in6_addr
}.

Definition set_ip_ttl (h : ipv4_hdr_t) (v : Z) : ipv4_hdr_t :=
  mk_ipv4 (ip_hl h) (ip_len h) (ip_off h) v (ip_p h) (ip_src h) (ip_dst h).
Definition set_ip_src (h : ipv4_hdr_t) (v : Z) : ipv4_hdr_t :=
  mk_ipv4 (ip_hl h) (ip_len h) (ip_off h) (ip_ttl h) (ip_p h) v (ip_dst h).
Definition set_ip_dst (h : ipv4_hdr_t) (v : Z) : ipv4_hdr_t :=
  mk_ipv4 (ip_hl h) (ip_len h) (ip_off h) (ip_ttl h) (ip_p h) (ip_src h) v.

Definition set_ip6_hl (h : ipv6_hdr_t) (v : Z) : ipv6_hdr_t :=
  mk_ipv6 (ip6_len h) (ip6_nh h) v (ip6_src h) (ip6_dst h).

(** Array access with C's bounds: outside the object there is no value. *)
Definition load8 (a : list Z) (i : Z) : result Z :=
  if i <? 0 then Fault
  else match nth_error a (Z.to_nat i) with
       | Some b => Ok b
       | None => Fault
       end.

Fixpoint list_set (a : list Z) (i : nat) (v : Z) : option (list Z) :=
  match a, i with
  | [], _ => None
  | _ :: a', O => Some (v :: a')
  | b :: a', S i' =>
      match list_set a' i' v with
      | Some r => Some (b :: r)
      | None => None
      end
  end.

Definition store8 (a : list Z) (i : Z) (v : Z) : result (list Z) :=
  if i <? 0 then Fault
  else match list_set a (Z.to_nat i) v with
       | Some r => Ok r
       | None => Fault
       end.

Section EditPacket.

(** Byte order of the host running the code. *)
Variable big_endian : bool.

Definition htonl (x : Z) : Z := if big_endian then u32 x else bswap32 (u32 x).
Definition ntohl (x : Z) : Z := htonl x.
Definition htons (x : Z) : Z := if big_endian then u16 x else bswap16 (u16 x).
Definition ntohs (x : Z) : Z := htons x.

(** The [s_addr] of the dotted quad [a.b.c.d]. *)
Definition dotted_quad (a b c d : Z) : Z :=
  htonl (a * 16777216 + b * 65536 + c * 256 + d).

(** The host's view of four bytes of memory as a [uint32_t], and back. *)
Definition load32 (l : list Z) : Z :=
  if big_endian then le_combine (rev l) else le_combine l.
Definition store32 (x : Z) : list Z :=
  if big_endian then rev (le_split 4 x) else le_split 4 x.

(** [p[i]] for [p = &addr->__u6_addr.__u6_addr32[0]]. *)
Definition get32 (a : tcpr_in6_addr) (i : nat) : Z :=
  load32 (firstn 4 (skipn (4 * i) a)).
Definition set32 (a : tcpr_in6_addr) (i : nat) (v : Z) : tcpr_in6_addr :=
  firstn (4 * i) a ++ store32 v ++ skipn (4 * i + 4) a.

(** *** is_unicast_ipv4, is_multicast_ipv6 (lines 876-901) *)

Definition is_unicast_ipv4 (t : tcpedit_t) (ip : Z) : bool :=
  if ntohl ip >? 3758096384 then false else true.

Definition is_multicast_ipv6 (t : tcpedit_t) (addr : tcpr_in6_addr) : bool :=
  match addr with
  | b :: _ => b =? 255
  | [] => false
  end.

(** *** randomize_ipv4_addr (lines 112-122) *)

Definition randomize_word (t : tcpedit_t) (w : Z) : Z :=
  u32 (Z.lxor w (htonl (seed t)) - Z.land w (htonl (seed t))).

Definition randomize_ipv4_addr (t : tcpedit_t) (ip : Z) : Z :=
  if skip_broadcast t && negb (is_unicast_ipv4 t ip) then ip
  else randomize_word t ip.

(** *** randomize_ipv6_addr (lines 124-146) *)

Definition set_first_byte (a : tcpr_in6_addr) (v : Z) : tcpr_in6_addr :=
  match a with
  | _ :: a' => v :: a'
  | [] => []
  end.

Definition randomize_ipv6_addr (t : tcpedit_t) (addr : tcpr_in6_addr)
  : tcpr_in6_addr :=
  let was_multicast := is_multicast_ipv6 t addr in
  let addr1 :=
    fold_left (fun a i => set32 a i (randomize_word t (get32 a i)))
              [0; 1; 2; 3]%nat addr in
  if was_multicast then set_first_byte addr1 255
  else if is_multicast_ipv6 t addr1 then set_first_byte addr1 170
  else addr1.

(** *** remap_ipv4 (lines 475-508) *)

Definition remap_ipv4 (t : tcpedit_t) (cidr : tcpr_cidr_t) (original : Z)
  : result Z :=
  if negb (family cidr =? AF_INET) then Ok 0
  else if skip_broadcast t && negb (is_unicast_ipv4 t original) then Ok original
  else
    mask <- shl_u32 4294967295 (32 - masklen cidr) ;;
    let network := Z.land (htonl (network cidr)) mask in
    let mask := Z.lxor mask 4294967295 in
    let ipaddr := Z.land (ntohl original) mask in
    let result := Z.lxor network ipaddr in
    Ok (htonl result).

(** *** remap_ipv6 (lines 510-541) *)

(** [for (i = 0; i < j; i++) addr[i] = network6[i];] with [n] iterations
    left, starting at index [i]. *)
Fixpoint copy_network_bytes (n : nat) (i : Z) (net addr : tcpr_in6_addr)
  : result tcpr_in6_addr :=
  match n with
  | O => Ok addr
  | S n' =>
      b <- load8 net i ;;
      addr' <- store8 addr i b ;;
      copy_network_bytes n' (i + 1) net addr'
  end.

Definition remap_ipv6 (t : tcpedit_t) (cidr : tcpr_cidr_t) (addr : tcpr_in6_addr)
  : result (Z * tcpr_in6_addr) :=
  if negb (family cidr =? AF_INET6) then Ok (0, addr)
  else if skip_broadcast t && is_multicast_ipv6 t addr then Ok (0, addr)
  else
    let j := Z.quot (masklen cidr) 8 in
    addr1 <- copy_network_bytes (Z.to_nat j) 0 (network6 cidr) addr ;;
    let i := Z.max 0 j in
    let k := Z.rem (masklen cidr) 8 in
    if k =? 0 then Ok (1, addr1)
    else
      k <- shl_int (-1) (8 - k) ;;
      b <- load8 addr1 i ;;
      let i := Z.land b k in
      n <- load8 (network6 cidr) j ;;
      m1 <- shl_int 255 (8 - k) ;;
      h <- load8 addr1 i ;;
      m2 <- shr_int 255 k ;;
      addr2 <- store8 addr1 i (u8 (Z.lor (Z.land n m1) (Z.land h m2))) ;;
      Ok (1, addr2).

(** *** rewrite_ipv4l3 (lines 549-627) *)

(** Modelled from the spec: [ip_in_cidr] (common/cidr.c) is not among the
    sources; the specification only says that an address "falls within" a
    CIDR. This reading compares the leading [masklen] bits of the address
    with those of the network, for an IPv4 CIDR. The functions below take
    [ip_in_cidr] as a parameter; this one instantiates it in examples. *)
Definition ip_in_cidr_model (c : tcpr_cidr_t) (ip : Z) : bool :=
  (family c =? AF_INET)
  && (Z.shiftr (ntohl ip) (32 - masklen c)
      =? Z.shiftr (htonl (network c)) (32 - masklen c)).

Variable ip_in_cidr : tcpr_cidr_t -> Z -> bool.

(** The locals of the loop: the header being rewritten, [didsrc], [diddst]. *)
Record walk_state : Type := mk_walk {
  w_hdr : ipv4_hdr_t;
  didsrc : bool;
  diddst : bool
}.

(** One pass through the body of the [do ... while (loop)], up to the test
    that decides whether the pointers advance. *)
Definition walk_body (t : tcpedit_t) (c1 c2 : tcpr_cidrmap_t) (st : walk_state)
  : result walk_state :=
  st1 <- (if negb (diddst st) && ip_in_cidr (from c2) (ip_dst (w_hdr st)) then
            v <- remap_ipv4 t (to c2) (ip_dst (w_hdr st)) ;;
            Ok (mk_walk (set_ip_dst (w_hdr st) v) (didsrc st) true)
          else Ok st) ;;
  if negb (didsrc st1) && ip_in_cidr (from c1) (ip_src (w_hdr st1)) then
    v <- remap_ipv4 t (to c1) (ip_src (w_hdr st1)) ;;
    Ok (mk_walk (set_ip_src (w_hdr st1) v) true (diddst st1))
  else Ok st1.

(** The loop: [cidrmap1] and [cidrmap2] advance independently, each as long
    as it has a [next]; recursion on the first list, and on the second one
    once the first has stopped. *)
Fixpoint cidr_walk (t : tcpedit_t) (c1 : tcpr_cidrmap_t) {struct c1}
  : tcpr_cidrmap_t -> walk_state -> result walk_state :=
  fix walk2 (c2 : tcpr_cidrmap_t) (st : walk_state) {struct c2}
    : result walk_state :=
    match walk_body t c1 c2 st with
    | Ok st' =>
        if negb (diddst st' && didsrc st') then
          match next c1, next c2 with
          | None, None => Ok st'
          | Some n1, None => cidr_walk t n1 c2 st'
          | None, Some n2 => walk2 n2 st'
          | Some n1, Some n2 => cidr_walk t n1 n2 st'
          end
        else Ok st'
    | Fault => Fault
    | Exit => Exit
    end.

(** The [--srcipmap] and [--dstipmap] step (lines 558-571). *)
Definition apply_ipmaps (t : tcpedit_t) (h : ipv4_hdr_t) : result ipv4_hdr_t :=
  h1 <- match srcipmap t with
        | Some m =>
            if ip_in_cidr (from m) (ip_src h) then
              v <- remap_ipv4 t (to m) (ip_src h) ;; Ok (set_ip_src h v)
            else Ok h
        | None => Ok h
        end ;;
  match dstipmap t with
  | Some m =>
      if ip_in_cidr (from m) (ip_dst h1) then
        v <- remap_ipv4 t (to m) (ip_dst h1) ;; Ok (set_ip_dst h1 v)
      else Ok h1
  | None => Ok h1
  end.

Definition b2z (b : bool) : Z := if b then 1 else 0.

(** Returns the count of rewritten fields and the header. A null
    [cidrmap2] next to a non-null [cidrmap1] is dereferenced by the loop. *)
Definition rewrite_ipv4l3 (t : tcpedit_t) (ip_hdr : ipv4_hdr_t)
  (direction : tcpr_dir_t) : result (Z * ipv4_hdr_t) :=
  h <- apply_ipmaps t ip_hdr ;;
  match cidrmap1 t with
  | None => Ok (0, h)
  | Some _ =>
      let '(m1, m2) :=
        match direction with
        | TCPR_DIR_C2S => (cidrmap1 t, cidrmap2 t)
        | TCPR_DIR_S2C => (cidrmap2 t, cidrmap1 t)
        end in
      match m1, m2 with
      | Some c1, Some c2 =>
          st <- cidr_walk t c1 c2 (mk_walk h false false) ;;
          Ok (b2z (diddst st) + b2z (didsrc st), w_hdr st)
      | _, _ => Fault
      end
  end.

(** *** rewrite_ipv4_ttl, rewrite_ipv6_hlim (lines 396-468)

    [ip_ttl], the hop limit and [ttl_value] are 8-bit unsigned. *)

Definition rewrite_ipv4_ttl (t : tcpedit_t) (ip_hdr : option ipv4_hdr_t)
  : result (Z * option ipv4_hdr_t) :=
  match ip_hdr with
  | None => Ok (0, None)
  | Some h =>
      if ttl_mode t =? 0 then Ok (0, Some h)
      else if ttl_mode t =? TCPEDIT_TTL_MODE_SET then
        if ip_ttl h =? ttl_value t then Ok (0, Some h)
        else Ok (1, Some (set_ip_ttl h (u8 (ttl_value t))))
      else if ttl_mode t =? TCPEDIT_TTL_MODE_ADD then
        if ip_ttl h + ttl_value t >? 255 then Ok (1, Some (set_ip_ttl h 255))
        else Ok (1, Some (set_ip_ttl h (u8 (ip_ttl h + ttl_value t))))
      else if ttl_mode t =? TCPEDIT_TTL_MODE_SUB then
        if ip_ttl h <=? ttl_value t then Ok (1, Some (set_ip_ttl h 1))
        else Ok (1, Some (set_ip_ttl h (u8 (ip_ttl h - ttl_value t))))
      else Exit
  end.

Definition rewrite_ipv6_hlim (t : tcpedit_t) (ip6_hdr : option ipv6_hdr_t)
  : result (Z * option ipv6_hdr_t) :=
  match ip6_hdr with
  | None => Ok (0, None)
  | Some h =>
      if ttl_mode t =? TCPEDIT_TTL_MODE_OFF then Ok (0, Some h)
      else if ttl_mode t =? TCPEDIT_TTL_MODE_SET then
        if ip6_hl h =? ttl_value t then Ok (0, Some h)
        else Ok (1, Some (set_ip6_hl h (u8 (ttl_value t))))
      else if ttl_mode t =? TCPEDIT_TTL_MODE_ADD then
        if ip6_hl h + ttl_value t >? 255 then Ok (1, Some (set_ip6_hl h 255))
        else Ok (1, Some (set_ip6_hl h (u8 (ip6_hl h + ttl_value t))))
      else if ttl_mode t =? TCPEDIT_TTL_MODE_SUB then
        if ip6_hl h <=? ttl_value t then Ok (1, Some (set_ip6_hl h 1))
        else Ok (1, Some (set_ip6_hl h (u8 (ip6_hl h - ttl_value t))))
      else Exit
  end.

(** *** untrunc_packet (lines 242-307)

    [pktdata] is the caller's buffer (its length is the capacity). The
    header views overlay that buffer: [ip_hdr] and [ip6_hdr] are the
    offsets in [pktdata] at which the IPv4 and the IPv6 header start,
    [None] for a null pointer, so a store to [ip_hdr->ip_len] changes
    bytes of the buffer and a [memset] over the buffer changes what the
    header reads. [ip_len] is bytes 2-3 of the IPv4 header and bytes 4-5 of
    the IPv6 header. The text given to [tcpedit_seterr] is not kept, only
    the return value -1. *)

Variable layer2len : tcpedit_t -> Z.

Record untrunc_state : Type := mk_untrunc {
  u_pkthdr : pcap_pkthdr;
  u_pktdata : list Z;
  u_ip_hdr : option Z;
  u_ip6_hdr : option Z
}.

Definition is_null {A : Type} (p : option A) : bool :=
  match p with
  | None => true
  | Some _ => false
  end.

(** [memset(buf + off, 0, n)] *)
Definition memset0 (buf : list Z) (off n : Z) : result (list Z) :=
  if (0 <=? off) && (0 <=? n) && (off + n <=? Z.of_nat (length buf)) then
    Ok (firstn (Z.to_nat off) buf ++ repeat 0 (Z.to_nat n)
        ++ skipn (Z.to_nat (off + n)) buf)
  else Fault.

(** The host's store of the [uint16_t] [v] at [buf + off]. *)
Definition store_u16 (buf : list Z) (off v : Z) : result (list Z) :=
  let '(b0, b1) :=
    if big_endian then (v / 256, v mod 256) else (v mod 256, v / 256) in
  buf1 <- store8 buf off b0 ;; store8 buf1 (off + 1) b1.

Definition ipv4_ip_len_offset : Z := 2.
Definition ipv6_ip_len_offset : Z := 4.

Definition untrunc_packet (t : tcpedit_t) (st : untrunc_state)
  : result (Z * untrunc_state) :=
  let pkthdr := u_pkthdr st in
  if ((caplen pkthdr =? len pkthdr)
      || (is_null (u_ip_hdr st) && is_null (u_ip6_hdr st)))
     && negb (mtu_truncate t)
  then Ok (0, st)
  else
    let l2len := layer2len t in
    if l2len <? 0 then Ok (-1, st)
    else if fixlen t =? TCPEDIT_FIXLEN_PAD then
      if len pkthdr >? caplen pkthdr then
        data <- memset0 (u_pktdata st) (caplen pkthdr)
                        (len pkthdr - caplen pkthdr) ;;
        Ok (1, mk_untrunc (mk_pkthdr (len pkthdr) (len pkthdr)) data
                          (u_ip_hdr st) (u_ip6_hdr st))
      else if len pkthdr <? caplen pkthdr then Ok (-1, st)
      else Ok (1, st)
    else if fixlen t =? TCPEDIT_FIXLEN_TRUNC then
      data <- (if negb (len pkthdr =? caplen pkthdr) then
                 match u_ip_hdr st with
                 | Some ip =>
                     store_u16 (u_pktdata st) (ip + ipv4_ip_len_offset)
                               (htons (u32 (caplen pkthdr - l2len)))
                 | None => Fault
                 end
               else Ok (u_pktdata st)) ;;
      Ok (1, mk_untrunc (mk_pkthdr (caplen pkthdr) (caplen pkthdr))
                        data (u_ip_hdr st) (u_ip6_hdr st))
    else if mtu_truncate t then
      if len pkthdr >? u32 (mtu t + l2len) then
        let pkthdr' := mk_pkthdr (u32 (l2len + mtu t)) (u32 (l2len + mtu t)) in
        match u_ip_hdr st, u_ip6_hdr st with
        | Some ip, _ =>
            data <- store_u16 (u_pktdata st) (ip + ipv4_ip_len_offset)
                              (htons (mtu t)) ;;
            Ok (1, mk_untrunc pkthdr' data (u_ip_hdr st) (u_ip6_hdr st))
        | None, Some ip6 =>
            data <- store_u16 (u_pktdata st) (ip6 + ipv6_ip_len_offset)
                              (htons (mtu t - TCPR_IPV6_H)) ;;
            Ok (1, mk_untrunc pkthdr' data (u_ip_hdr st) (u_ip6_hdr st))
        | None, None =>
            Ok (0, mk_untrunc pkthdr' (u_pktdata st)
                              (u_ip_hdr st) (u_ip6_hdr st))
        end
      else Ok (1, st)
    else Ok (-1, st).

(** *** fix_ipv4_checksums (lines 55-82)

    [do_checksum] (checksum.c) is not among the sources: a parameter that
    returns its status and the memory it leaves at [ip_hdr]. That memory is
    the header followed by the layer 4 bytes. The third component of the
    result is the list of [do_checksum] calls made, as (protocol, length)
    pairs in call order. *)

Definition ip_region : Type := (ipv4_hdr_t * list Z)%type.

Variable do_checksum : tcpedit_t -> ip_region -> Z -> Z -> Z * ip_region.

Definition fix_ipv4_checksums (t : tcpedit_t) (pkthdr : pcap_pkthdr)
  (mem : ip_region) : Z * ip_region * list (Z * Z) :=
  let ip_hdr := fst mem in
  let '(ret1, mem1, calls1) :=
    if (caplen pkthdr =? len pkthdr)
       && (Z.land (htons (ip_off ip_hdr)) IP_OFFMASK =? 0)
    then
      let l4len := ntohs (ip_len ip_hdr) - Z.shiftl (ip_hl ip_hdr) 2 in
      let '(r, m) := do_checksum t mem (ip_p ip_hdr) l4len in
      (r, m, [(ip_p ip_hdr, l4len)])
    else (0, mem, []) in
  if ret1 <? 0 then (TCPEDIT_ERROR, mem1, calls1)
  else
    let l3len := ntohs (ip_len (fst mem1)) in
    let '(ret2, mem2) := do_checksum t mem1 IPPROTO_IP l3len in
    let calls2 := calls1 ++ [(IPPROTO_IP, l3len)] in
    if ret2 <? 0 then (TCPEDIT_ERROR, mem2, calls2)
    else if (ret1 =? TCPEDIT_WARN) || (ret2 =? TCPEDIT_WARN)
    then (TCPEDIT_WARN, mem2, calls2)
    else (TCPEDIT_OK, mem2, calls2).

(** *** extract_data (lines 314-390)

    Two objects are in play: the packet [pktdata] and the local array
    [ipbuff], whose bytes are whatever the stack holds on entry. A pointer
    names one of them and an offset. [get_ipv4] and [get_layer4_v4]
    (common/get.c) are not among the sources and are parameters:
    [get_ipv4 pktdata caplen dlt dataptr ipbuff] gives the header pointer
    (or null), the value it leaves in [dataptr] and the bytes it leaves in
    [ipbuff]. *)

Inductive ptr : Type :=
| PktPtr (off : Z)
| BufPtr (off : Z).

Record l7mem : Type := mk_l7mem {
  m_pktdata : list Z;
  m_ipbuff : list Z
}.

Definition ptr_add (p : ptr) (n : Z) : ptr :=
  match p with
  | PktPtr o => PktPtr (o + n)
  | BufPtr o => BufPtr (o + n)
  end.

Definition deref (m : l7mem) (p : ptr) : result Z :=
  match p with
  | PktPtr o => load8 (m_pktdata m) o
  | BufPtr o => load8 (m_ipbuff m) o
  end.

(** The [n] bytes [memcpy] reads from [p]. *)
Fixpoint read_bytes (m : l7mem) (p : ptr) (n : nat) : result (list Z) :=
  match n with
  | O => Ok []
  | S n' =>
      b <- deref m p ;;
      r <- read_bytes m (ptr_add p 1) n' ;;
      Ok (b :: r)
  end.

Definition load16 (b0 b1 : Z) : Z :=
  if big_endian then b0 * 256 + b1 else b0 + 256 * b1.

(** Header members read through a pointer: [ip_hl] is the low nibble of byte
    0, [ip_len] bytes 2-3, [ip_p] byte 9; [th_off] the high nibble of byte
    12 of the TCP header. *)
Definition read_ip_hl (m : l7mem) (p : ptr) : result Z :=
  b <- deref m p ;; Ok (Z.land b 15).
Definition read_ip_len (m : l7mem) (p : ptr) : result Z :=
  b0 <- deref m (ptr_add p 2) ;; b1 <- deref m (ptr_add p 3) ;;
  Ok (load16 b0 b1).
Definition read_ip_p (m : l7mem) (p : ptr) : result Z :=
  deref m (ptr_add p 9).
Definition read_th_off (m : l7mem) (p : ptr) : result Z :=
  b <- deref m (ptr_add p 12) ;; Ok (Z.shiftr b 4).

(** Modelled from the spec: [get_ipv4] for an Ethernet frame, the "external
    link-layer classification" of the specification: the IPv4 header starts
    after the 14-byte link header when the EtherType is 0x0800 and 20 bytes
    are captured; nothing is copied. Instantiates the parameter in
    examples. *)
Definition get_ipv4_ether (pktdata : list Z) (datalen dlt : Z) (dataptr : ptr)
  (ipbuff : list Z) : option ptr * ptr * list Z :=
  if (14 + 20 <=? datalen)
     && match nth_error pktdata 12, nth_error pktdata 13 with
        | Some 8, Some 0 => true
        | _, _ => false
        end
  then (Some (PktPtr 14), dataptr, ipbuff)
  else (None, dataptr, ipbuff).

(** Modelled from the spec: [get_layer4_v4], the layer 4 header right after
    the IPv4 header. Instantiates the parameter in examples. *)
Definition get_layer4_after (m : l7mem) (ip_hdr : ptr) (n : Z) : option ptr :=
  match read_ip_hl m ip_hdr with
  | Ok hl => Some (ptr_add ip_hdr (Z.shiftl hl 2))
  | _ => None
  end.

Variable get_ipv4 :
  list Z -> Z -> Z -> ptr -> list Z -> option ptr * ptr * list Z.
Variable get_layer4_v4 : l7mem -> ptr -> Z -> option ptr.

(** Returns the byte count and the bytes copied to [l7data] (none when the
    function returns 0 before the [memcpy]). *)
Definition extract_data (t : tcpedit_t) (pktdata : list Z) (caplen : Z)
  (ipbuff : list Z) : result (Z * list Z) :=
  let dataptr := BufPtr 0 in
  let '(ip_hdr, dataptr, ipbuff) :=
    get_ipv4 pktdata caplen (dlt1 t) dataptr ipbuff in
  match ip_hdr with
  | None => Ok (0, [])
  | Some ip_hdr =>
      let m := mk_l7mem pktdata ipbuff in
      iplen <- read_ip_len m ip_hdr ;;
      let datalen :=
        if caplen >? ntohs iplen then ntohs iplen else caplen - l2len t in
      hl <- read_ip_hl m ip_hdr ;;
      let datalen := datalen - Z.shiftl hl 2 in
      let dataptr := ptr_add dataptr (Z.shiftl hl 2) in
      if datalen <=? 0 then Ok (0, [])
      else
        proto <- read_ip_p m ip_hdr ;;
        r <- (if proto =? IPPROTO_TCP then
                match get_layer4_v4 m ip_hdr datalen with
                | None => Fault
                | Some tcp_hdr =>
                    off <- read_th_off m tcp_hdr ;;
                    let datalen := datalen - Z.shiftl off 2 in
                    if datalen <=? 0 then Ok None
                    else Ok (Some (datalen, ptr_add dataptr (Z.shiftl off 2)))
                end
              else if proto =? IPPROTO_UDP then
                let datalen := datalen - TCPR_UDP_H in
                if datalen <=? 0 then Ok None
                else Ok (Some (datalen, ptr_add dataptr TCPR_UDP_H))
              else if proto =? IPPROTO_ICMP then Ok None
              else Ok (Some (datalen, ip_hdr))) ;;
        match r with
        | None => Ok (0, [])
        | Some (datalen, dataptr) =>
            l7data <- read_bytes m dataptr (Z.to_nat datalen) ;;
            Ok (datalen, l7data)
        end
  end.

(** *** randomize_ipv4, randomize_ipv6 (lines 154-234)

    [pkthdr] and [pktdata] are only asserted non-null. *)

Definition set_ip6_src (h : ipv6_hdr_t) (a : tcpr_in6_addr) : ipv6_hdr_t :=
  mk_ipv6 (ip6_len h) (ip6_nh h) (ip6_hl h) a (ip6_dst h).
Definition set_ip6_dst (h : ipv6_hdr_t) (a : tcpr_in6_addr) : ipv6_hdr_t :=
  mk_ipv6 (ip6_len h) (ip6_nh h) (ip6_hl h) (ip6_src h) a.

Definition randomize_ipv4 (t : tcpedit_t) (ip_hdr : ipv4_hdr_t)
  : Z * ipv4_hdr_t :=
  let h1 :=
    if (skip_broadcast t && is_unicast_ipv4 t (ip_dst ip_hdr))
       || negb (skip_broadcast t)
    then set_ip_dst ip_hdr (randomize_ipv4_addr t (ip_dst ip_hdr))
    else ip_hdr in
  let h2 :=
    if (skip_broadcast t && is_unicast_ipv4 t (ip_src h1))
       || negb (skip_broadcast t)
    then set_ip_src h1 (randomize_ipv4_addr t (ip_src h1))
    else h1 in
  (1, h2).

Definition randomize_ipv6 (t : tcpedit_t) (ip6_hdr : ipv6_hdr_t)
  : Z * ipv6_hdr_t :=
  let h1 :=
    if (skip_broadcast t && negb (is_multicast_ipv6 t (ip6_dst ip6_hdr)))
       || negb (skip_broadcast t)
    then set_ip6_dst ip6_hdr (randomize_ipv6_addr t (ip6_dst ip6_hdr))
    else ip6_hdr in
  let h2 :=
    if (skip_broadcast t && negb (is_multicast_ipv6 t (ip6_src h1)))
       || negb (skip_broadcast t)
    then set_ip6_src h1 (randomize_ipv6_addr t (ip6_src h1))
    else h1 in
  (1, h2).

(** *** fix_ipv6_checksums (lines 84-106)

    The same [do_checksum], here on the memory at an IPv6 header: the
    header and the bytes after it. The result lists the calls made, as for
    [fix_ipv4_checksums]. *)

Definition ip6_region : Type := (ipv6_hdr_t * list Z)%type.

Variable do_checksum_v6 : tcpedit_t -> ip6_region -> Z -> Z -> Z * ip6_region.

Definition fix_ipv6_checksums (t : tcpedit_t) (pkthdr : pcap_pkthdr)
  (mem : ip6_region) : Z * ip6_region * list (Z * Z) :=
  let ip6_hdr := fst mem in
  if caplen pkthdr =? len pkthdr then
    let '(ret, mem1) :=
      do_checksum_v6 t mem (ip6_nh ip6_hdr) (htons (ip6_len ip6_hdr)) in
    let calls := [(ip6_nh ip6_hdr, htons (ip6_len ip6_hdr))] in
    if ret <? 0 then (TCPEDIT_ERROR, mem1, calls)
    else if ret =? TCPEDIT_WARN then (TCPEDIT_WARN, mem1, calls)
    else (TCPEDIT_OK, mem1, calls)
  else (TCPEDIT_OK, mem, []).

(** *** rewrite_ipv6l3 (lines 629-707)

    [ip6_in_cidr] (common/cidr.c) is a parameter. The value [remap_ipv6]
    returns is dropped by every call. *)

Variable ip6_in_cidr : tcpr_cidr_t -> tcpr_in6_addr -> bool.

Record walk6_state : Type := mk_walk6 {
  w6_hdr : ipv6_hdr_t;
  didsrc6 : bool;
  diddst6 : bool
}.

Definition walk6_body (t : tcpedit_t) (c1 c2 : tcpr_cidrmap_t)
  (st : walk6_state) : result walk6_state :=
  st1 <- (if negb (diddst6 st) && ip6_in_cidr (from c2) (ip6_dst (w6_hdr st))
          then
            r <- remap_ipv6 t (to c2) (ip6_dst (w6_hdr st)) ;;
            Ok (mk_walk6 (set_ip6_dst (w6_hdr st) (snd r)) (didsrc6 st) true)
          else Ok st) ;;
  if negb (didsrc6 st1) && ip6_in_cidr (from c1) (ip6_src (w6_hdr st1)) then
    r <- remap_ipv6 t (to c1) (ip6_src (w6_hdr st1)) ;;
    Ok (mk_walk6 (set_ip6_src (w6_hdr st1) (snd r)) true (diddst6 st1))
  else Ok st1.

Fixpoint cidr6_walk (t : tcpedit_t) (c1 : tcpr_cidrmap_t) {struct c1}
  : tcpr_cidrmap_t -> walk6_state -> result walk6_state :=
  fix walk2 (c2 : tcpr_cidrmap_t) (st : walk6_state) {struct c2}
    : result walk6_state :=
    match walk6_body t c1 c2 st with
    | Ok st' =>
        if negb (diddst6 st' && didsrc6 st') then
          match next c1, next c2 with
          | None, None => Ok st'
          | Some n1, None => cidr6_walk t n1 c2 st'
          | None, Some n2 => walk2 n2 st'
          | Some n1, Some n2 => cidr6_walk t n1 n2 st'
          end
        else Ok st'
    | Fault => Fault
    | Exit => Exit
    end.

Definition apply_ip6maps (t : tcpedit_t) (h : ipv6_hdr_t) : result ipv6_hdr_t :=
  h1 <- match srcipmap t with
        | Some m =>
            if ip6_in_cidr (from m) (ip6_src h) then
              r <- remap_ipv6 t (to m) (ip6_src h) ;; Ok (set_ip6_src h (snd r))
            else Ok h
        | None => Ok h
        end ;;
  match dstipmap t with
  | Some m =>
      if ip6_in_cidr (from m) (ip6_dst h1) then
        r <- remap_ipv6 t (to m) (ip6_dst h1) ;; Ok (set_ip6_dst h1 (snd r))
      else Ok h1
  | None => Ok h1
  end.

Definition rewrite_ipv6l3 (t : tcpedit_t) (ip6_hdr : ipv6_hdr_t)
  (direction : tcpr_dir_t) : result (Z * ipv6_hdr_t) :=
  h <- apply_ip6maps t ip6_hdr ;;
  match cidrmap1 t with
  | None => Ok (0, h)
  | Some _ =>
      let '(m1, m2) :=
        match direction with
        | TCPR_DIR_C2S => (cidrmap1 t, cidrmap2 t)
        | TCPR_DIR_S2C => (cidrmap2 t, cidrmap1 t)
        end in
      match m1, m2 with
      | Some c1, Some c2 =>
          st <- cidr6_walk t c1 c2 (mk_walk6 h false false) ;;
          Ok (b2z (diddst6 st) + b2z (didsrc6 st), w6_hdr st)
      | _, _ => Fault
      end
  end.

(** *** Chains as sequences

    Not in the source: the entries of a chain in list order, and the "to"
    CIDR of the first entry whose "from" contains an address. They state
    what the lockstep loop computes. *)

Fixpoint chain_length (c : tcpr_cidrmap_t) : nat :=
  S match next c with
    | Some n => chain_length n
    | None => O
    end.

Fixpoint chain_find (a : Z) (c : tcpr_cidrmap_t) : option tcpr_cidr_t :=
  if ip_in_cidr (from c) a then Some (to c)
  else match next c with
       | Some n => chain_find a n
       | None => None
       end.

(** The rewrite one field gets from a chain: none when the field is already
    done or no entry matches. *)
Definition remap_first (t : tcpedit_t) (done : bool) (chain : tcpr_cidrmap_t)
  (a : Z) : result (option Z) :=
  if done then Ok None
  else match chain_find a chain with
       | Some c => v <- remap_ipv4 t c a ;; Ok (Some v)
       | None => Ok None
       end.

Definition is_some {A : Type} (o : option A) : bool :=
  match o with
  | Some _ => true
  | None => false
  end.

(** The header with the destination and source replaced where a rewrite
    was found. *)
Definition apply_remaps (h : ipv4_hdr_t) (d s : option Z) : ipv4_hdr_t :=
  let h1 := match d with
            | Some v => set_ip_dst h v
            | None => h
            end in
  match s with
  | Some v => set_ip_src h1 v
  | None => h1
  end.

(** Two independent first-match lookups, destination in [c2] and source in
    [c1], from the loop state [st]. *)
Definition walk_first_match (t : tcpedit_t) (c1 c2 : tcpr_cidrmap_t)
  (st : walk_state) : result walk_state :=
  d <- remap_first t (diddst st) c2 (ip_dst (w_hdr st)) ;;
  s <- remap_first t (didsrc st) c1 (ip_src (w_hdr st)) ;;
  Ok (mk_walk (apply_remaps (w_hdr st) d s)
              (didsrc st || is_some s) (diddst st || is_some d)).

(** *** randomize_iparp (lines 713-750)

    [arp_hdr_t] is 8 bytes: [ar_hrd] (0-1), [ar_pro] (2-3), [ar_hln] (4),
    [ar_pln] (5), [ar_op] (6-7); the addresses follow in the buffer.
    [get_l2len] (common/get.c) is a parameter. [*ip] reads four bytes of the
    buffer as the host does, [memcpy(ip, &tempip, 4)] writes them back. *)

Definition ETHERTYPE_IP : Z := 2048.
Definition ARPOP_REQUEST : Z := 1.
Definition ARPOP_REPLY : Z := 2.
Definition sizeof_arp_hdr_t : Z := 8.

Definition load_u16 (buf : list Z) (off : Z) : result Z :=
  b0 <- load8 buf off ;; b1 <- load8 buf (off + 1) ;; Ok (load16 b0 b1).

Definition load_u32 (buf : list Z) (off : Z) : result Z :=
  b0 <- load8 buf off ;; b1 <- load8 buf (off + 1) ;;
  b2 <- load8 buf (off + 2) ;; b3 <- load8 buf (off + 3) ;;
  Ok (load32 [b0; b1; b2; b3]).

(** Writes the bytes [l] from offset [off] on. *)
Fixpoint store_bytes (buf : list Z) (off : Z) (l : list Z)
  : result (list Z) :=
  match l with
  | [] => Ok buf
  | b :: l' => buf' <- store8 buf off b ;; store_bytes buf' (off + 1) l'
  end.

Definition store_u32 (buf : list Z) (off : Z) (v : Z) : result (list Z) :=
  store_bytes buf off (store32 v).

Variable get_l2len : list Z -> Z -> Z -> Z.

(** Whether the ARP header at [arp] is an IPv4 request or reply; [ar_op] is
    read only when [ar_pro] is IPv4, and a second time only when it is no
    request. *)
Definition arp_is_ipv4_request_or_reply (buf : list Z) (arp : Z)
  : result bool :=
  pro <- load_u16 buf (arp + 2) ;;
  if ntohs pro =? ETHERTYPE_IP then
    op <- load_u16 buf (arp + 6) ;;
    Ok ((ntohs op =? ARPOP_REQUEST) || (ntohs op =? ARPOP_REPLY))
  else Ok false.

Definition randomize_iparp (t : tcpedit_t) (pkthdr : pcap_pkthdr)
  (pktdata : list Z) (datalink : Z) : result (Z * list Z) :=
  let l2len := get_l2len pktdata (caplen pkthdr) datalink in
  let arp_hdr := l2len in
  go <- arp_is_ipv4_request_or_reply pktdata arp_hdr ;;
  if go then
    hln <- load8 pktdata (arp_hdr + 4) ;;
    let add_hdr := arp_hdr + sizeof_arp_hdr_t + hln in
    ip <- load_u32 pktdata add_hdr ;;
    data1 <- store_u32 pktdata add_hdr (randomize_ipv4_addr t ip) ;;
    pln <- load8 data1 (arp_hdr + 5) ;;
    hln <- load8 data1 (arp_hdr + 4) ;;
    let add_hdr := add_hdr + (pln + hln) in
    ip <- load_u32 data1 add_hdr ;;
    data2 <- store_u32 data1 add_hdr (randomize_ipv4_addr t ip) ;;
    Ok (1, data2)
  else Ok (1, pktdata).

(** *** rewrite_iparp (lines 760-870), without FORCE_ALIGN

    [arp] is the buffer that starts at [arp_hdr]; [cache_mode] is an [int]
    in C, here [Some] direction or [None] for any other value. [ip1] and
    [ip2] are the offsets of the sender and target protocol addresses. *)

Record arp_state : Type := mk_arp_state {
  a_buf : list Z;
  a_didsrc : bool;
  a_diddst : bool
}.

(** [if (!done && ip_in_cidr(map->from, *ip)) { newip = remap_ipv4(...);
    memcpy(ip, &newip, 4); done = 1; }] on the buffer. *)
Definition arp_remap_at (t : tcpedit_t) (done : bool) (map : tcpr_cidrmap_t)
  (buf : list Z) (ip : Z) : result (list Z * bool) :=
  if done then Ok (buf, true)
  else
    a <- load_u32 buf ip ;;
    if ip_in_cidr (from map) a then
      a <- load_u32 buf ip ;;
      newip <- remap_ipv4 t (to map) a ;;
      buf' <- store_u32 buf ip newip ;;
      Ok (buf', true)
    else Ok (buf, false).

Definition arp_walk_body (t : tcpedit_t) (ip1 ip2 : Z)
  (c1 c2 : tcpr_cidrmap_t) (st : arp_state) : result arp_state :=
  op <- load_u16 (a_buf st) 6 ;;
  if ntohs op =? ARPOP_REQUEST then
    d <- arp_remap_at t (a_diddst st) c2 (a_buf st) ip1 ;;
    s <- arp_remap_at t (a_didsrc st) c1 (fst d) ip2 ;;
    Ok (mk_arp_state (fst s) (snd s) (snd d))
  else
    d <- arp_remap_at t (a_diddst st) c2 (a_buf st) ip2 ;;
    s <- arp_remap_at t (a_didsrc st) c1 (fst d) ip1 ;;
    Ok (mk_arp_state (fst s) (snd s) (snd d)).

Fixpoint arp_walk (t : tcpedit_t) (ip1 ip2 : Z) (c1 : tcpr_cidrmap_t)
  {struct c1} : tcpr_cidrmap_t -> arp_state -> result arp_state :=
  fix walk2 (c2 : tcpr_cidrmap_t) (st : arp_state) {struct c2}
    : result arp_state :=
    match arp_walk_body t ip1 ip2 c1 c2 st with
    | Ok st' =>
        if negb (a_diddst st' && a_didsrc st') then
          match next c1, next c2 with
          | None, None => Ok st'
          | Some n1, None => arp_walk t ip1 ip2 n1 c2 st'
          | None, Some n2 => walk2 n2 st'
          | Some n1, Some n2 => arp_walk t ip1 ip2 n1 n2 st'
          end
        else Ok st'
    | Fault => Fault
    | Exit => Exit
    end.

Definition rewrite_iparp (t : tcpedit_t) (arp : list Z)
  (cache_mode : option tcpr_dir_t) : result (Z * list Z) :=
  let '(m1, m2) :=
    match cache_mode with
    | Some TCPR_DIR_C2S => (cidrmap1 t, cidrmap2 t)
    | Some TCPR_DIR_S2C => (cidrmap2 t, cidrmap1 t)
    | None => (None, None)
    end in
  match m1, m2 with
  | Some c1, Some c2 =>
      go <- arp_is_ipv4_request_or_reply arp 0 ;;
      if go then
        hln <- load8 arp 4 ;;
        let ip1 := sizeof_arp_hdr_t + hln in
        pln <- load8 arp 5 ;;
        hln <- load8 arp 4 ;;
        let ip2 := ip1 + (pln + hln) in
        st <- arp_walk t ip1 ip2 c1 c2 (mk_arp_state arp false false) ;;
        Ok (b2z (a_didsrc st) + b2z (a_diddst st), a_buf st)
      else Ok (0, arp)
  | _, _ => Ok (0, arp)
  end.

(** *** Buffers that differ only inside given windows

    Not in the source: [same_outside ws buf buf'] says that [buf'] has the
    length of [buf] and the same byte at every index outside the 4-byte
    windows that start at the offsets [ws]. *)

Definition in_window (o : Z) (k : nat) : Prop :=
  o <= Z.of_nat k < o + 4.

Definition same_outside (ws : list Z) (buf buf' : list Z) : Prop :=
  length buf' = length buf
  /\ forall k : nat,
       (forall o, In o ws -> ~ in_window o k) -> nth k buf' 0 = nth k buf 0.

(** ** Configuration updates and sample inputs *)

(** A configuration with every edit off. *)
Definition tcpedit_off : tcpedit_t :=
  mk_tcpedit 0 false TCPEDIT_TTL_MODE_OFF 0 TCPEDIT_FIXLEN_OFF 0 false
             None None None None 14 1.

Definition with_seed (t : tcpedit_t) (s : Z) (skip : bool) : tcpedit_t :=
  mk_tcpedit s skip (ttl_mode t) (ttl_value t) (fixlen t) (mtu t)
             (mtu_truncate t) (cidrmap1 t) (cidrmap2 t) (srcipmap t)
             (dstipmap t) (l2len t) (dlt1 t).

Definition with_ttl (t : tcpedit_t) (mode value : Z) : tcpedit_t :=
  mk_tcpedit (seed t) (skip_broadcast t) mode value (fixlen t) (mtu t)
             (mtu_truncate t) (cidrmap1 t) (cidrmap2 t) (srcipmap t)
             (dstipmap t) (l2len t) (dlt1 t).

Definition with_fixlen (t : tcpedit_t) (f : Z) : tcpedit_t :=
  mk_tcpedit (seed t) (skip_broadcast t) (ttl_mode t) (ttl_value t) f (mtu t)
             (mtu_truncate t) (cidrmap1 t) (cidrmap2 t) (srcipmap t)
             (dstipmap t) (l2len t) (dlt1 t).

Definition with_cidrmaps (t : tcpedit_t) (c1 c2 : option tcpr_cidrmap_t)
  : tcpedit_t :=
  mk_tcpedit (seed t) (skip_broadcast t) (ttl_mode t) (ttl_value t) (fixlen t)
             (mtu t) (mtu_truncate t) c1 c2 (srcipmap t) (dstipmap t)
             (l2len t) (dlt1 t).

Definition with_ipmaps (t : tcpedit_t) (s d : option tcpr_cidrmap_t)
  : tcpedit_t :=
  mk_tcpedit (seed t) (skip_broadcast t) (ttl_mode t) (ttl_value t) (fixlen t)
             (mtu t) (mtu_truncate t) (cidrmap1 t) (cidrmap2 t) s d
             (l2len t) (dlt1 t).

Definition cidr4 (a b c d n : Z) : tcpr_cidr_t :=
  mk_cidr AF_INET (dotted_quad a b c d) [] n.

(** An IPv6 CIDR from the leading bytes of its network. *)
Definition cidr6 (prefix : list Z) (n : Z) : tcpr_cidr_t :=
  mk_cidr AF_INET6 0 (prefix ++ repeat 0 (16 - length prefix)%nat) n.

(** 2001:db8::1 *)
Definition addr6_doc : tcpr_in6_addr :=
  [32; 1; 13; 184; 0; 0; 0; 0; 0; 0; 0; 0; 0; 0; 0; 1].

(** An IPv4 header (20 bytes, TTL 64, UDP) from [src] to [dst]. *)
Definition hdr4 (src dst : Z) : ipv4_hdr_t :=
  mk_ipv4 5 (htons 40) 0 64 IPPROTO_UDP src dst.

Definition hdr6 : ipv6_hdr_t :=
  mk_ipv6 (htons 20) IPPROTO_UDP 64 addr6_doc addr6_doc.

(** An Ethernet frame of 38 bytes: link header, a 20-byte IPv4 header with
    total length 24 and protocol 47 (GRE), then the four payload bytes
    [de ad be ef]. *)
Definition gre_frame : list Z :=
  [0; 17; 34; 51; 68; 85;  102; 119; 136; 153; 170; 187;  8; 0]
  ++ [69; 0; 0; 24;  0; 0; 0; 0;  64; 47; 0; 0;
      192; 168; 0; 1;  192; 168; 0; 2]
  ++ [222; 173; 190; 239].

(** The chains of the two-against-one example: 10.1/16 -> 172.16/16 then
    10.2/16 -> 172.17/16 on one side, 192.168/16 -> 10.200/16 on the
    other. *)
Definition chain_p2 : tcpr_cidrmap_t :=
  mk_cidrmap (cidr4 10 2 0 0 16) (cidr4 172 17 0 0 16) None.
Definition chain_p1 : tcpr_cidrmap_t :=
  mk_cidrmap (cidr4 10 1 0 0 16) (cidr4 172 16 0 0 16) (Some chain_p2).
Definition chain_s1 : tcpr_cidrmap_t :=
  mk_cidrmap (cidr4 192 168 0 0 16) (cidr4 10 200 0 0 16) None.

Definition with_mtu (t : tcpedit_t) (m : Z) : tcpedit_t :=
  mk_tcpedit (seed t) (skip_broadcast t) (ttl_mode t) (ttl_value t) (fixlen t)
             m true (cidrmap1 t) (cidrmap2 t) (srcipmap t) (dstipmap t)
             (l2len t) (dlt1 t).

Definition ether_header (ethertype_hi ethertype_lo : Z) : list Z :=
  [0; 17; 34; 51; 68; 85;  102; 119; 136; 153; 170; 187;
   ethertype_hi; ethertype_lo].

(** An Ethernet frame of 58 bytes: IPv4 header (total length 44, TCP), a
    20-byte TCP header and the four payload bytes [de ad be ef]. *)
Definition tcp_frame : list Z :=
  ether_header 8 0
  ++ [69; 0; 0; 44;  0; 0; 0; 0;  64; 6; 0; 0;
      192; 168; 0; 1;  192; 168; 0; 2]
  ++ [4; 210; 0; 80;  0; 0; 0; 1;  0; 0; 0; 0;  80; 24; 16; 0;  0; 0; 0; 0]
  ++ [222; 173; 190; 239].

(** An Ethernet frame of 42 bytes: IPv4 header (total length 28, ICMP) and
    an 8-byte echo request. *)
Definition icmp_frame : list Z :=
  ether_header 8 0
  ++ [69; 0; 0; 28;  0; 0; 0; 0;  64; 1; 0; 0;
      192; 168; 0; 1;  192; 168; 0; 2]
  ++ [8; 0; 247; 255;  0; 0; 0; 0].

(** An ARP request for Ethernet and IPv4: who has 192.168.0.2, tell
    192.168.0.1. *)
Definition arp_request : list Z :=
  [0; 1;  8; 0;  6;  4;  0; 1]
  ++ [102; 119; 136; 153; 170; 187] ++ [192; 168; 0; 1]
  ++ [0; 0; 0; 0; 0; 0] ++ [192; 168; 0; 2].

Definition arp_frame : list Z := ether_header 8 6 ++ arp_request.

(** ff02::1 *)
Definition addr6_all_nodes : tcpr_in6_addr :=
  [255; 2; 0; 0; 0; 0; 0; 0; 0; 0; 0; 0; 0; 0; 0; 1].

Definition hdr6_multicast : ipv6_hdr_t :=
  mk_ipv6 20 IPPROTO_UDP 64 addr6_all_nodes addr6_all_nodes.

(** ** Proof automation *)

(** Turns [H : forallb byte_ok [b0; ...; bn] = true], once [forallb] is
    unfolded, into one range hypothesis per byte. *)
Ltac split_bytes H :=
  repeat (apply andb_true_iff in H;
          let Hb := fresh "Hb" in
          let Hlo := fresh "Hlo" in
          let Hhi := fresh "Hhi" in
          destruct H as [Hb H];
          apply andb_true_iff in Hb; destruct Hb as [Hlo Hhi];
          apply Z.leb_le in Hlo; apply Z.ltb_lt in Hhi;
          pose proof (conj Hlo Hhi) as Hb; clear Hlo Hhi).

(** Case analysis for the chain walker: simplifies the loop state, uses the
    known outcomes of [ip_in_cidr], and splits on each [remap_ipv4] result
    and chain lookup in the goal; [no_exit] refutes an [Exit] result. *)
Ltac walk_cases no_exit :=
  repeat match goal with
    | _ => progress cbn [bind negb andb orb diddst didsrc w_hdr is_some
                         apply_remaps set_ip_src set_ip_dst ip_src ip_dst
                         ip_hl ip_len ip_off ip_ttl ip_p]
    | H : ip_in_cidr _ _ = _ |- _ => rewrite H
    | |- context [remap_ipv4 ?t ?c ?a] =>
        let E := fresh "E" in
        destruct (remap_ipv4 t c a) eqn:E; [ | | exfalso; no_exit E ]
    | |- context [match chain_find ?a ?c with _ => _ end] =>
        destruct (chain_find a c)
    end.

(** * Properties *)

(** ** Machine integers and byte order *)

Lemma u32_range (x : Z) : 0 <= u32 x < 4294967296.
Proof. unfold u32. apply Z.mod_pos_bound. lia. Qed.

Lemma u32_small (x : Z) : 0 <= x < 4294967296 -> u32 x = x.
Proof. intros H. unfold u32. apply Z.mod_small. exact H. Qed.

Lemma u32_testbit (x i : Z) :
  0 <= i < 32 -> Z.testbit (u32 x) i = Z.testbit x i.
Proof.
  intros H. unfold u32. change 4294967296 with (2 ^ 32).
  apply Z.mod_pow2_bits_low. lia.
Qed.

Lemma bswap32_range (x : Z) : 0 <= bswap32 x < 4294967296.
Proof.
  unfold bswap32.
  pose proof (Z.mod_pos_bound x 256 ltac:(lia)).
  pose proof (Z.mod_pos_bound (x / 256) 256 ltac:(lia)).
  pose proof (Z.mod_pos_bound (x / 65536) 256 ltac:(lia)).
  pose proof (Z.mod_pos_bound (x / 16777216) 256 ltac:(lia)).
  lia.
Qed.

Lemma byte_mod (a r : Z) : 0 <= a < 256 -> (a + 256 * r) mod 256 = a.
Proof.
  intros H. symmetry. apply (Z.mod_unique_pos _ _ r). exact H. lia.
Qed.

Lemma byte_div (a r : Z) : 0 <= a < 256 -> (a + 256 * r) / 256 = r.
Proof.
  intros H. symmetry. apply (Z.div_unique_pos _ _ r a). exact H. lia.
Qed.

Lemma bswap32_bytes (a b c d : Z) :
  0 <= a < 256 -> 0 <= b < 256 -> 0 <= c < 256 -> 0 <= d < 256 ->
  bswap32 (a + 256 * (b + 256 * (c + 256 * d)))
  = d + 256 * (c + 256 * (b + 256 * a)).
Proof.
  intros Ha Hb Hc Hd. unfold bswap32.
  change 65536 with (256 * 256). change 16777216 with (256 * 256 * 256).
  rewrite <- !Z.div_div by lia.
  rewrite !byte_mod, !byte_div by assumption.
  rewrite !byte_mod by assumption.
  rewrite Z.mod_small by assumption. lia.
Qed.

Lemma bytes_of_u32 (x : Z) :
  0 <= x < 4294967296 ->
  exists a b c d,
    0 <= a < 256 /\ 0 <= b < 256 /\ 0 <= c < 256 /\ 0 <= d < 256 /\
    x = a + 256 * (b + 256 * (c + 256 * d)).
Proof.
  intros H.
  exists (x mod 256), (x / 256 mod 256), (x / 256 / 256 mod 256),
         (x / 256 / 256 / 256).
  pose proof (Z.div_mod x 256 ltac:(lia)) as E1.
  pose proof (Z.div_mod (x / 256) 256 ltac:(lia)) as E2.
  pose proof (Z.div_mod (x / 256 / 256) 256 ltac:(lia)) as E3.
  pose proof (Z.mod_pos_bound x 256 ltac:(lia)).
  pose proof (Z.mod_pos_bound (x / 256) 256 ltac:(lia)).
  pose proof (Z.mod_pos_bound (x / 256 / 256) 256 ltac:(lia)).
  repeat split; try lia.
Qed.

Lemma bswap32_involutive (x : Z) :
  0 <= x < 4294967296 -> bswap32 (bswap32 x) = x.
Proof.
  intros H.
  destruct (bytes_of_u32 x H) as (a & b & c & d & Ha & Hb & Hc & Hd & ->).
  rewrite bswap32_bytes by assumption.
  apply bswap32_bytes; assumption.
Qed.

Lemma htonl_involutive (x : Z) : htonl (htonl x) = u32 x.
Proof.
  unfold htonl. destruct big_endian.
  - apply u32_small, u32_range.
  - rewrite (u32_small (bswap32 _)) by apply bswap32_range.
    apply bswap32_involutive, u32_range.
Qed.

Lemma htonl_range (x : Z) : 0 <= htonl x < 4294967296.
Proof.
  unfold htonl. destruct big_endian.
  - apply u32_range.
  - apply bswap32_range.
Qed.

Lemma htonl_0 : htonl 0 = 0.
Proof. unfold htonl. destruct big_endian; reflexivity. Qed.

(** ** remap_ipv4 *)

Lemma prefix_mask_testbit (n i : Z) :
  0 <= n < 32 -> 0 <= i < 32 ->
  Z.testbit (u32 (Z.shiftl 4294967295 n)) i = (n <=? i).
Proof.
  intros Hn Hi. rewrite u32_testbit by assumption.
  rewrite Z.shiftl_spec by lia.
  change 4294967295 with (Z.ones 32).
  destruct (Z.leb_spec n i).
  - apply Z.ones_spec_low. lia.
  - apply Z.testbit_neg_r. lia.
Qed.

(** For a prefix length from 1 to 32 the result carries the network's
    leading [masklen] bits and the original's remaining bits (bit 31 is the
    first bit on the wire). *)
Lemma remap_ipv4_splice (t : tcpedit_t) (cidr : tcpr_cidr_t) (original : Z) :
  family cidr = AF_INET ->
  1 <= masklen cidr <= 32 ->
  skip_broadcast t = false \/ is_unicast_ipv4 t original = true ->
  exists r,
    remap_ipv4 t cidr original = Ok r /\
    forall i, 0 <= i < 32 ->
      Z.testbit (ntohl r) i
      = if i <? 32 - masklen cidr
        then Z.testbit (ntohl original) i
        else Z.testbit (htonl (network cidr)) i.
Proof.
  intros Hf Hm Hs. unfold remap_ipv4.
  rewrite Hf, Z.eqb_refl. cbn [negb].
  replace (skip_broadcast t && negb (is_unicast_ipv4 t original)) with false
    by (destruct Hs as [-> | ->]; [reflexivity | now rewrite andb_false_r]).
  unfold shl_u32, shift_count_ok.
  replace ((0 <=? 32 - masklen cidr) && (32 - masklen cidr <? 32)) with true
    by (symmetry; apply andb_true_iff; split;
        [apply Z.leb_le | apply Z.ltb_lt]; lia).
  cbn [bind]. eexists. split; [reflexivity |].
  intros i Hi. unfold ntohl at 1.
  rewrite htonl_involutive, u32_testbit by assumption.
  rewrite Z.lxor_spec, !Z.land_spec, Z.lxor_spec.
  rewrite prefix_mask_testbit by lia.
  change 4294967295 with (Z.ones 32). rewrite Z.ones_spec_low by lia.
  destruct (Z.ltb_spec i (32 - masklen cidr)) as [Hlt | Hge].
  - replace (32 - masklen cidr <=? i) with false by (symmetry; apply Z.leb_gt; lia).
    cbn. now rewrite andb_false_r, andb_true_r.
  - replace (32 - masklen cidr <=? i) with true by (symmetry; apply Z.leb_le; lia).
    cbn. now rewrite andb_false_r, andb_true_r, xorb_false_r.
Qed.

(** ** Randomization with a zero seed *)

Lemma randomize_word_seed0 (t : tcpedit_t) (w : Z) :
  seed t = 0 -> randomize_word t w = u32 w.
Proof.
  intros Hs. unfold randomize_word. rewrite Hs, htonl_0.
  rewrite Z.lxor_0_r, Z.land_0_r. f_equal. lia.
Qed.

Lemma le_split_combine4 (a b c d : Z) :
  0 <= a < 256 -> 0 <= b < 256 -> 0 <= c < 256 -> 0 <= d < 256 ->
  le_split 4 (a + 256 * (b + 256 * (c + 256 * d))) = [a; b; c; d].
Proof.
  intros Ha Hb Hc Hd. cbn [le_split].
  repeat first [rewrite byte_mod by assumption | rewrite byte_div by assumption].
  rewrite Z.mod_small by assumption. reflexivity.
Qed.

Lemma store32_load32 (a b c d : Z) :
  0 <= a < 256 -> 0 <= b < 256 -> 0 <= c < 256 -> 0 <= d < 256 ->
  store32 (u32 (load32 [a; b; c; d])) = [a; b; c; d].
Proof.
  intros Ha Hb Hc Hd. unfold store32, load32.
  destruct big_endian; cbn [rev app le_combine].
  - rewrite Z.mul_0_r, Z.add_0_r, u32_small by lia.
    rewrite le_split_combine4 by assumption. reflexivity.
  - rewrite Z.mul_0_r, Z.add_0_r, u32_small by lia.
    apply le_split_combine4; assumption.
Qed.

(** C10. With seed 0 both randomizers return their argument: the word mix
    is [(w ^ 0) - (w & 0)], and the multicast fix-ups of the IPv6 one write
    back the first byte the address already has. *)
Theorem randomize_seed0_identity (t : tcpedit_t) (ip : Z) (addr : tcpr_in6_addr) :
  seed t = 0 ->
  0 <= ip < 4294967296 ->
  in6_addr_ok addr = true ->
  randomize_ipv4_addr t ip = ip /\ randomize_ipv6_addr t addr = addr.
Proof.
  intros Hs Hip Hok. split.
  - unfold randomize_ipv4_addr.
    rewrite randomize_word_seed0, u32_small by assumption.
    now destruct (skip_broadcast t && negb (is_unicast_ipv4 t ip)).
  - unfold in6_addr_ok in Hok.
    apply andb_true_iff in Hok. destruct Hok as [Hlen Hall].
    apply Nat.eqb_eq in Hlen.
    do 16 (destruct addr as [| ? addr]; [discriminate Hlen |]).
    destruct addr; [| discriminate Hlen]. clear Hlen.
    cbn [forallb] in Hall. split_bytes Hall.
    unfold randomize_ipv6_addr. cbn [fold_left].
    unfold get32, set32.
    cbn [Nat.mul Nat.add firstn skipn app].
    rewrite !randomize_word_seed0 by assumption.
    rewrite !store32_load32 by assumption.
    cbn [app]. rewrite !store32_load32 by assumption.
    cbn [app]. rewrite !store32_load32 by assumption.
    cbn [app]. rewrite !store32_load32 by assumption.
    cbn [app is_multicast_ipv6 set_first_byte].
    destruct (Z.eqb_spec z 255) as [-> | _]; reflexivity.
Qed.

(** ** TTL and hop limit *)

(** C8. For 8-bit values, whatever the rest of the configuration:
    SUBTRACT returns a header whose TTL is [max 1 (ttl - value)], never
    below 1; ADD returns a header whose TTL is [min 255 (ttl + value)],
    never above 255; SET to the value the header already has returns 0 and
    the header as it was. The same for the IPv6 hop limit. *)
Theorem ttl_rewrite_saturates (t : tcpedit_t) (value : Z) (h : ipv4_hdr_t)
  (h6 : ipv6_hdr_t) :
  0 <= value < 256 ->
  0 <= ip_ttl h < 256 ->
  0 <= ip6_hl h6 < 256 ->
  let sub := with_ttl t TCPEDIT_TTL_MODE_SUB value in
  let add := with_ttl t TCPEDIT_TTL_MODE_ADD value in
  (exists (h' : ipv4_hdr_t) (h6' : ipv6_hdr_t),
     rewrite_ipv4_ttl sub (Some h) = Ok (1, Some h')
     /\ rewrite_ipv6_hlim sub (Some h6) = Ok (1, Some h6')
     /\ ip_ttl h' = Z.max 1 (ip_ttl h - value)
     /\ ip6_hl h6' = Z.max 1 (ip6_hl h6 - value)
     /\ 1 <= ip_ttl h' <= 255
     /\ 1 <= ip6_hl h6' <= 255)
  /\ (exists (h' : ipv4_hdr_t) (h6' : ipv6_hdr_t),
        rewrite_ipv4_ttl add (Some h) = Ok (1, Some h')
        /\ rewrite_ipv6_hlim add (Some h6) = Ok (1, Some h6')
        /\ ip_ttl h' = Z.min 255 (ip_ttl h + value)
        /\ ip6_hl h6' = Z.min 255 (ip6_hl h6 + value)
        /\ ip_ttl h <= ip_ttl h' <= 255
        /\ ip6_hl h6 <= ip6_hl h6' <= 255)
  /\ (rewrite_ipv4_ttl (with_ttl t TCPEDIT_TTL_MODE_SET (ip_ttl h)) (Some h)
      = Ok (0, Some h)
      /\ rewrite_ipv6_hlim (with_ttl t TCPEDIT_TTL_MODE_SET (ip6_hl h6))
                           (Some h6)
         = Ok (0, Some h6)).
Proof.
  intros Hv Ht Ht6 sub add. subst sub add.
  unfold rewrite_ipv4_ttl, rewrite_ipv6_hlim, with_ttl.
  cbn [ttl_mode ttl_value Z.eqb Pos.eqb TCPEDIT_TTL_MODE_SUB
       TCPEDIT_TTL_MODE_ADD TCPEDIT_TTL_MODE_SET TCPEDIT_TTL_MODE_OFF].
  rewrite !Z.eqb_refl, !Z.gtb_ltb.
  split; [| split].
  - destruct (Z.leb_spec (ip_ttl h) value);
      destruct (Z.leb_spec (ip6_hl h6) value);
      do 2 eexists;
      (split; [reflexivity |]); (split; [reflexivity |]);
      cbn [ip_ttl set_ip_ttl ip6_hl set_ip6_hl];
      unfold u8; rewrite ?Z.mod_small by lia; lia.
  - destruct (Z.ltb_spec 255 (ip_ttl h + value));
      destruct (Z.ltb_spec 255 (ip6_hl h6 + value));
      do 2 eexists;
      (split; [reflexivity |]); (split; [reflexivity |]);
      cbn [ip_ttl set_ip_ttl ip6_hl set_ip6_hl];
      unfold u8; rewrite ?Z.mod_small by lia; lia.
  - split; reflexivity.
Qed.

(** ** Checksums *)

(** C9. On a partial capture ([caplen < len]), and also on a fragment whose
    offset bits are not all zero, the only [do_checksum] call is the layer 3
    one: the function is that call, with its status mapped to the return
    code. *)
Theorem fix_ipv4_checksums_l3_only (t : tcpedit_t) (pkthdr : pcap_pkthdr)
  (mem : ip_region) :
  caplen pkthdr < len pkthdr
  \/ Z.land (htons (ip_off (fst mem))) IP_OFFMASK <> 0 ->
  fix_ipv4_checksums t pkthdr mem
  = let l3len := ntohs (ip_len (fst mem)) in
    let '(ret2, mem2) := do_checksum t mem IPPROTO_IP l3len in
    (if ret2 <? 0 then TCPEDIT_ERROR
     else if ret2 =? TCPEDIT_WARN then TCPEDIT_WARN else TCPEDIT_OK,
     mem2, [(IPPROTO_IP, l3len)]).
Proof.
  intros H. unfold fix_ipv4_checksums.
  replace ((caplen pkthdr =? len pkthdr)
           && (Z.land (htons (ip_off (fst mem))) IP_OFFMASK =? 0)) with false.
  - cbn. destruct (do_checksum t mem IPPROTO_IP (ntohs (ip_len (fst mem))))
      as [ret2 mem2].
    destruct (ret2 <? 0); [reflexivity |].
    destruct (ret2 =? TCPEDIT_WARN); reflexivity.
  - symmetry. apply andb_false_iff. destruct H as [H | H].
    + left. apply Z.eqb_neq. lia.
    + right. apply Z.eqb_neq. exact H.
Qed.

(** The other direction: on a whole packet that is no later fragment the
    first call is the layer 4 one. *)
Lemma fix_ipv4_checksums_l4_first (t : tcpedit_t) (pkthdr : pcap_pkthdr)
  (mem : ip_region) :
  caplen pkthdr = len pkthdr ->
  Z.land (htons (ip_off (fst mem))) IP_OFFMASK = 0 ->
  exists rest,
    snd (fix_ipv4_checksums t pkthdr mem)
    = (ip_p (fst mem),
       ntohs (ip_len (fst mem)) - Z.shiftl (ip_hl (fst mem)) 2) :: rest.
Proof.
  intros Hc Ho. unfold fix_ipv4_checksums.
  rewrite Hc, Z.eqb_refl, Ho. cbn [Z.eqb andb].
  destruct (do_checksum t mem (ip_p (fst mem)) _) as [r1 m1].
  destruct (r1 <? 0); [now eexists |].
  destruct (do_checksum t m1 IPPROTO_IP _) as [r2 m2].
  destruct (r2 <? 0); [now eexists |].
  destruct ((r1 =? TCPEDIT_WARN) || (r2 =? TCPEDIT_WARN)); now eexists.
Qed.

(** ** The CIDR chain walker *)

Lemma remap_ipv4_family_mismatch (t : tcpedit_t) (cidr : tcpr_cidr_t) (a : Z) :
  family cidr <> AF_INET -> remap_ipv4 t cidr a = Ok 0.
Proof.
  intros H. unfold remap_ipv4.
  apply Z.eqb_neq in H. now rewrite H.
Qed.

(** A source map whose "to" CIDR is not IPv4 overwrites a matching source
    address with the 0 that [remap_ipv4] returns. *)
Lemma apply_ipmaps_family_mismatch (t : tcpedit_t) (h : ipv4_hdr_t)
  (m : tcpr_cidrmap_t) :
  srcipmap t = Some m -> dstipmap t = None ->
  ip_in_cidr (from m) (ip_src h) = true ->
  family (to m) <> AF_INET ->
  apply_ipmaps t h = Ok (set_ip_src h 0).
Proof.
  intros Hs Hd Hin Hf. unfold apply_ipmaps.
  rewrite Hs, Hd, Hin, remap_ipv4_family_mismatch by assumption.
  reflexivity.
Qed.

(** C7. A two-entry primary chain [p1 -> p2] and a one-entry secondary
    chain [s1]: the destination matches [s1] on the first pass, the source
    matches [p2] (not [p1]) on the second; the secondary pointer stays on
    [s1] while the primary one advances. The walk ends after the second
    pass and the function returns 2. The two remaps are assumed to be
    defined (prefix lengths their shift accepts). *)
Theorem rewrite_ipv4l3_unequal_chains (t : tcpedit_t) (ip_hdr h : ipv4_hdr_t)
  (direction : tcpr_dir_t) (p1 p2 s1 : tcpr_cidrmap_t) (src' dst' : Z) :
  match direction with
  | TCPR_DIR_C2S => (cidrmap1 t, cidrmap2 t)
  | TCPR_DIR_S2C => (cidrmap2 t, cidrmap1 t)
  end = (Some p1, Some s1) ->
  next p1 = Some p2 -> next p2 = None -> next s1 = None ->
  apply_ipmaps t ip_hdr = Ok h ->
  ip_in_cidr (from s1) (ip_dst h) = true ->
  ip_in_cidr (from p1) (ip_src h) = false ->
  ip_in_cidr (from p2) (ip_src h) = true ->
  remap_ipv4 t (to s1) (ip_dst h) = Ok dst' ->
  remap_ipv4 t (to p2) (ip_src h) = Ok src' ->
  rewrite_ipv4l3 t ip_hdr direction
  = Ok (2, set_ip_src (set_ip_dst h dst') src').
Proof.
  intros Hchains Hn1 Hn2 Hns Hmaps Hdst Hsrc1 Hsrc2 Hrd Hrs.
  unfold rewrite_ipv4l3. rewrite Hmaps. cbn [bind].
  assert (Hc1 : cidrmap1 t <> None)
    by (destruct direction; inversion Hchains; congruence).
  destruct (cidrmap1 t) as [c |] eqn:E1; [clear Hc1 | congruence].
  replace (match direction with
           | TCPR_DIR_C2S => (Some c, cidrmap2 t)
           | TCPR_DIR_S2C => (cidrmap2 t, Some c)
           end) with (Some p1, Some s1).
  clear Hchains E1 c.
  destruct p1 as [f1 t1 n1], p2 as [f2 t2 n2], s1 as [fs ts ns].
  cbn [next from to] in *. subst n1 n2 ns.
  cbn [cidr_walk next]. unfold walk_body.
  cbn [diddst didsrc w_hdr from to negb andb].
  rewrite Hdst, Hrd. cbn [bind diddst didsrc w_hdr set_ip_dst ip_src ip_dst].
  rewrite Hsrc1. cbn [andb negb diddst didsrc next].
  cbn [bind w_hdr set_ip_dst ip_src ip_dst didsrc diddst negb andb].
  rewrite Hsrc2, Hrs.
  cbn [bind diddst didsrc w_hdr negb andb b2z]. reflexivity.
Qed.

(** ** remap_ipv6 *)

Lemma load8_not_exit (a : list Z) (i : Z) : load8 a i <> Exit.
Proof.
  unfold load8. destruct (i <? 0); [discriminate |].
  destruct (nth_error a (Z.to_nat i)); discriminate.
Qed.

Lemma copy_network_bytes_not_exit (n : nat) (i : Z) (net addr : tcpr_in6_addr) :
  copy_network_bytes n i net addr <> Exit.
Proof.
  revert i addr. induction n as [| n IH]; intros i addr; cbn [copy_network_bytes].
  - discriminate.
  - destruct (load8 net i) eqn:E; cbn [bind]; try discriminate.
    + unfold store8. destruct (i <? 0); [discriminate |].
      destruct (list_set addr (Z.to_nat i) a); cbn [bind]; [apply IH | discriminate].
    + now apply load8_not_exit in E.
Qed.

Lemma shr_int_negative_count (x k : Z) : k < 0 -> shr_int x k = Fault.
Proof.
  intros H. unfold shr_int, shift_count_ok.
  replace (0 <=? k) with false by (symmetry; apply Z.leb_gt; exact H).
  reflexivity.
Qed.

Lemma shl_int_minus1_negative (n k : Z) :
  1 <= n <= 7 -> shl_int (-1) n = Ok k -> k < 0.
Proof.
  intros Hn.
  assert (Hc : n = 1 \/ n = 2 \/ n = 3 \/ n = 4 \/ n = 5 \/ n = 6 \/ n = 7)
    by lia.
  intros E.
  repeat (destruct Hc as [-> | Hc]; [vm_compute in E; injection E as <-; lia |]).
  subst n. vm_compute in E. injection E as <-. lia.
Qed.

(** With a prefix length that is not a multiple of 8 the partial byte is
    never spliced: [k] holds the (negative) mask [~0 << (8 - k)] by the time
    it is used as the count of [0xff >> k]. *)
Lemma remap_ipv6_partial_byte_undefined (t : tcpedit_t) (cidr : tcpr_cidr_t)
  (addr : tcpr_in6_addr) :
  family cidr = AF_INET6 ->
  skip_broadcast t && is_multicast_ipv6 t addr = false ->
  0 <= masklen cidr ->
  Z.rem (masklen cidr) 8 <> 0 ->
  remap_ipv6 t cidr addr = Fault.
Proof.
  intros Hf Hs Hm Hk. unfold remap_ipv6.
  rewrite Hf, Z.eqb_refl, Hs. cbn [negb].
  pose proof (copy_network_bytes_not_exit
                (Z.to_nat (Z.quot (masklen cidr) 8)) 0 (network6 cidr) addr) as Hc.
  destruct (copy_network_bytes _ 0 (network6 cidr) addr) as [addr1 | |];
    cbn [bind]; [| reflexivity | congruence].
  apply Z.eqb_neq in Hk. rewrite Hk.
  pose proof (Z.rem_bound_pos (masklen cidr) 8 Hm ltac:(lia)) as Hr.
  apply Z.eqb_neq in Hk.
  destruct (shl_int (-1) (8 - Z.rem (masklen cidr) 8)) as [k | |] eqn:Ek;
    cbn [bind]; try reflexivity.
  - apply shl_int_minus1_negative in Ek; [| lia].
    destruct (load8 addr1 _) as [b | |] eqn:Eb; cbn [bind]; try reflexivity.
    + destruct (load8 (network6 cidr) _) as [n | |] eqn:En; cbn [bind];
        try reflexivity.
      * destruct (shl_int 255 (8 - k)) as [m1 | |] eqn:Em1; cbn [bind];
          try reflexivity.
        -- destruct (load8 addr1 (Z.land b k)) as [h | |] eqn:Eh; cbn [bind];
             try reflexivity.
           ++ now rewrite shr_int_negative_count.
           ++ now apply load8_not_exit in Eh.
        -- unfold shl_int in Em1. destruct (shift_count_ok (8 - k)); discriminate.
      * now apply load8_not_exit in En.
    + now apply load8_not_exit in Eb.
  - unfold shl_int in Ek. destruct (shift_count_ok _); discriminate.
Qed.

(** ** untrunc_packet in TRUNCATE mode *)

(** Without an IPv4 header but with an IPv6 one the same path stores
    through the null [ip_hdr]. *)
Lemma untrunc_packet_trunc_null_ipv4 (t : tcpedit_t) (st : untrunc_state)
  (ip6 : Z) :
  fixlen t = TCPEDIT_FIXLEN_TRUNC ->
  caplen (u_pkthdr st) <> len (u_pkthdr st) ->
  u_ip_hdr st = None ->
  u_ip6_hdr st = Some ip6 ->
  0 <= layer2len t ->
  untrunc_packet t st = Fault.
Proof.
  intros Hfix Hne Hip Hip6 Hl2. unfold untrunc_packet.
  rewrite Hfix, Hip, Hip6. cbn [is_null andb orb].
  apply Z.eqb_neq in Hne. rewrite Hne. cbn [orb andb].
  replace (layer2len t <? 0) with false by (symmetry; apply Z.ltb_ge; lia).
  cbn [Z.eqb Pos.eqb TCPEDIT_FIXLEN_TRUNC TCPEDIT_FIXLEN_PAD].
  rewrite Z.eqb_sym, Hne. reflexivity.
Qed.

(** ** randomize_ipv4_addr and the multicast range *)

(** Strictly above 224.0.0.0 the address is skipped; 224.0.0.0 itself is
    not (see [randomize_ipv4_addr_224_changed]). *)
Lemma randomize_ipv4_addr_skips_above_224 (t : tcpedit_t) (ip : Z) :
  skip_broadcast t = true ->
  3758096384 < ntohl ip ->
  randomize_ipv4_addr t ip = ip.
Proof.
  intros Hs Hip. unfold randomize_ipv4_addr, is_unicast_ipv4.
  rewrite Hs, Z.gtb_ltb.
  replace (3758096384 <? ntohl ip) with true
    by (symmetry; apply Z.ltb_lt; exact Hip).
  reflexivity.
Qed.

(** ** extract_data on a protocol other than TCP, UDP and ICMP *)

(** The count returned is the data length past the IP header, but the bytes
    copied are read from [ip_hdr] itself. *)
Lemma extract_data_unknown_proto (t : tcpedit_t) (pktdata : list Z)
  (caplen : Z) (ipbuff ipbuff' : list Z) (ip_hdr dataptr : ptr)
  (iplen hl proto : Z) :
  let m := mk_l7mem pktdata ipbuff' in
  let datalen :=
    (if caplen >? ntohs iplen then ntohs iplen else caplen - l2len t)
    - Z.shiftl hl 2 in
  get_ipv4 pktdata caplen (dlt1 t) (BufPtr 0) ipbuff
  = (Some ip_hdr, dataptr, ipbuff') ->
  read_ip_len m ip_hdr = Ok iplen ->
  read_ip_hl m ip_hdr = Ok hl ->
  read_ip_p m ip_hdr = Ok proto ->
  0 < datalen ->
  proto <> IPPROTO_TCP -> proto <> IPPROTO_UDP -> proto <> IPPROTO_ICMP ->
  extract_data t pktdata caplen ipbuff
  = (l7data <- read_bytes m ip_hdr (Z.to_nat datalen) ;; Ok (datalen, l7data)).
Proof.
  intros m datalen Hget Hlen Hhl Hp Hpos Htcp Hudp Hicmp.
  unfold extract_data. rewrite Hget. fold m.
  rewrite Hlen. cbn [bind]. rewrite Hhl. cbn [bind]. fold datalen.
  replace (datalen <=? 0) with false by (symmetry; apply Z.leb_gt; exact Hpos).
  rewrite Hp. cbn [bind].
  apply Z.eqb_neq in Htcp, Hudp, Hicmp. rewrite Htcp, Hudp, Hicmp.
  reflexivity.
Qed.

(** ** The chain walker as two first-match lookups *)

Lemma remap_ipv4_not_exit (t : tcpedit_t) (cidr : tcpr_cidr_t) (a : Z) :
  remap_ipv4 t cidr a <> Exit.
Proof.
  unfold remap_ipv4, shl_u32.
  destruct (negb (family cidr =? AF_INET)); [discriminate |].
  destruct (skip_broadcast t && negb (is_unicast_ipv4 t a)); [discriminate |].
  destruct (shift_count_ok (32 - masklen cidr)); discriminate.
Qed.

Lemma cidr_walk_unfold (t : tcpedit_t) (c1 c2 : tcpr_cidrmap_t)
  (st : walk_state) :
  cidr_walk t c1 c2 st
  = match walk_body t c1 c2 st with
    | Ok st' =>
        if negb (diddst st' && didsrc st') then
          match next c1, next c2 with
          | None, None => Ok st'
          | Some n1, None => cidr_walk t n1 c2 st'
          | None, Some n2 => cidr_walk t c1 n2 st'
          | Some n1, Some n2 => cidr_walk t n1 n2 st'
          end
        else Ok st'
    | Fault => Fault
    | Exit => Exit
    end.
Proof. destruct c1, c2; reflexivity. Qed.

Lemma chain_find_unfold (a : Z) (c : tcpr_cidrmap_t) :
  chain_find a c
  = if ip_in_cidr (from c) a then Some (to c)
    else match next c with
         | Some n => chain_find a n
         | None => None
         end.
Proof. destruct c; reflexivity. Qed.

Lemma chain_length_unfold (c : tcpr_cidrmap_t) :
  chain_length c
  = S match next c with
      | Some n => chain_length n
      | None => O
      end.
Proof. destruct c; reflexivity. Qed.

Lemma cidr_walk_first_match (t : tcpedit_t) (n : nat) :
  forall (c1 c2 : tcpr_cidrmap_t) (st : walk_state),
    (chain_length c1 + chain_length c2 <= n)%nat ->
    cidr_walk t c1 c2 st = walk_first_match t c1 c2 st.
Proof.
  induction n as [| n IH]; intros c1 c2 st Hn.
  - rewrite (chain_length_unfold c1) in Hn. cbn in Hn. inversion Hn.
  - rewrite cidr_walk_unfold.
    unfold walk_first_match, remap_first, walk_body.
    rewrite (chain_find_unfold _ c1), (chain_find_unfold _ c2).
    rewrite (chain_length_unfold c1), (chain_length_unfold c2) in Hn.
    destruct st as [h ds dd].
    cbn [diddst didsrc w_hdr].
    destruct dd, ds; cbn [negb andb orb bind];
      try destruct (ip_in_cidr (from c2) (ip_dst h)) eqn:Ed;
      try destruct (ip_in_cidr (from c1) (ip_src h)) eqn:Es;
      cbn [negb andb orb bind diddst didsrc w_hdr];
      walk_cases ltac:(fun E => exact (remap_ipv4_not_exit _ _ _ E));
      try reflexivity;
      destruct (next c1) as [n1 |] eqn:N1; destruct (next c2) as [n2 |] eqn:N2;
      try reflexivity;
      try (rewrite IH
             by (rewrite ?N1, ?N2 in Hn;
                 rewrite ?(chain_length_unfold c1), ?(chain_length_unfold c2),
                   ?N1, ?N2;
                 lia));
      unfold walk_first_match, remap_first;
      cbn [diddst didsrc w_hdr set_ip_src set_ip_dst ip_src ip_dst];
      rewrite ?(chain_find_unfold _ c1), ?(chain_find_unfold _ c2), ?N1, ?N2,
        ?Ed, ?Es;
      walk_cases ltac:(fun E => exact (remap_ipv4_not_exit _ _ _ E));
      reflexivity.
Qed.

Lemma rewrite_ipv4l3_walk_eq (t : tcpedit_t) (ip_hdr h : ipv4_hdr_t)
  (direction : tcpr_dir_t) (c1 c2 : tcpr_cidrmap_t) :
  match direction with
  | TCPR_DIR_C2S => (cidrmap1 t, cidrmap2 t)
  | TCPR_DIR_S2C => (cidrmap2 t, cidrmap1 t)
  end = (Some c1, Some c2) ->
  apply_ipmaps t ip_hdr = Ok h ->
  rewrite_ipv4l3 t ip_hdr direction
  = (d <- remap_first t false c2 (ip_dst h) ;;
     s <- remap_first t false c1 (ip_src h) ;;
     Ok (b2z (is_some d) + b2z (is_some s), apply_remaps h d s)).
Proof.
  intros Hchains Hmaps. unfold rewrite_ipv4l3. rewrite Hmaps. cbn [bind].
  assert (Hc1 : cidrmap1 t <> None)
    by (destruct direction; inversion Hchains; congruence).
  destruct (cidrmap1 t) as [c |] eqn:E1; [clear Hc1 | congruence].
  rewrite Hchains.
  rewrite (cidr_walk_first_match t (chain_length c1 + chain_length c2))
    by apply Nat.le_refl.
  unfold walk_first_match. cbn [diddst didsrc w_hdr].
  destruct (remap_first t false c2 (ip_dst h)) as [d | |]; cbn [bind];
    try reflexivity.
  destruct (remap_first t false c1 (ip_src h)) as [s | |]; cbn [bind];
    reflexivity.
Qed.

(** X1. [rewrite_ipv4l3], once the direct maps are applied, rewrites the
    destination by the first entry of the secondary chain that contains it
    and the source by the first entry of the primary chain that contains
    it, each field on its own, and returns the number of fields for which
    an entry was found. The lengths of the two chains play no part. *)
Theorem rewrite_ipv4l3_first_match (t : tcpedit_t) (ip_hdr h : ipv4_hdr_t)
  (direction : tcpr_dir_t) (c1 c2 : tcpr_cidrmap_t) :
  match direction with
  | TCPR_DIR_C2S => (cidrmap1 t, cidrmap2 t)
  | TCPR_DIR_S2C => (cidrmap2 t, cidrmap1 t)
  end = (Some c1, Some c2) ->
  apply_ipmaps t ip_hdr = Ok h ->
  rewrite_ipv4l3 t ip_hdr direction
  = (d <- remap_first t false c2 (ip_dst h) ;;
     s <- remap_first t false c1 (ip_src h) ;;
     Ok (b2z (is_some d) + b2z (is_some s), apply_remaps h d s)).
Proof. exact (rewrite_ipv4l3_walk_eq t ip_hdr h direction c1 c2). Qed.

(** X2. When no entry of either chain contains the address it is tested
    against, [rewrite_ipv4l3] returns 0 and the header the direct maps
    left. *)
Theorem rewrite_ipv4l3_no_match (t : tcpedit_t) (ip_hdr h : ipv4_hdr_t)
  (direction : tcpr_dir_t) (c1 c2 : tcpr_cidrmap_t) :
  match direction with
  | TCPR_DIR_C2S => (cidrmap1 t, cidrmap2 t)
  | TCPR_DIR_S2C => (cidrmap2 t, cidrmap1 t)
  end = (Some c1, Some c2) ->
  apply_ipmaps t ip_hdr = Ok h ->
  chain_find (ip_dst h) c2 = None ->
  chain_find (ip_src h) c1 = None ->
  rewrite_ipv4l3 t ip_hdr direction = Ok (0, h).
Proof.
  intros Hchains Hmaps Hd Hs.
  rewrite (rewrite_ipv4l3_walk_eq t ip_hdr h direction c1 c2)
    by assumption.
  unfold remap_first. rewrite Hd, Hs. reflexivity.
Qed.

(** X3. Without a [cidrmap1] the function returns 0 also when the direct
    source map rewrote the source address: that rewrite is not counted. *)
Theorem rewrite_ipv4l3_srcipmap_not_counted (t : tcpedit_t) (h : ipv4_hdr_t)
  (direction : tcpr_dir_t) (m : tcpr_cidrmap_t) (v : Z) :
  cidrmap1 t = None ->
  srcipmap t = Some m -> dstipmap t = None ->
  ip_in_cidr (from m) (ip_src h) = true ->
  remap_ipv4 t (to m) (ip_src h) = Ok v ->
  rewrite_ipv4l3 t h direction = Ok (0, set_ip_src h v).
Proof.
  intros Hc Hs Hd Hin Hv. unfold rewrite_ipv4l3, apply_ipmaps.
  now rewrite Hs, Hd, Hin, Hv, Hc.
Qed.

(** ** remap_ipv4 applied twice *)

Lemma splice_fixed (N A n i : Z) :
  0 <= n < 32 -> 0 <= i ->
  let mask := u32 (Z.shiftl 4294967295 n) in
  let X := Z.lxor (Z.land N mask) (Z.land A (Z.lxor mask 4294967295)) in
  Z.testbit (Z.lxor (Z.land N mask)
                    (Z.land (u32 X) (Z.lxor mask 4294967295))) i
  = Z.testbit X i.
Proof.
  intros Hn Hi mask X. subst X.
  rewrite !Z.lxor_spec, !Z.land_spec, !Z.lxor_spec.
  destruct (Z.ltb_spec i 32) as [Hlt | Hge].
  - rewrite u32_testbit by lia.
    rewrite !Z.lxor_spec, !Z.land_spec, !Z.lxor_spec.
    change 4294967295 with (Z.ones 32). rewrite Z.ones_spec_low by lia.
    destruct (Z.testbit N i), (Z.testbit A i), (Z.testbit mask i);
      reflexivity.
  - assert (Hm : Z.testbit mask i = false).
    { subst mask. unfold u32. change 4294967296 with (2 ^ 32).
      apply Z.mod_pow2_bits_high. lia. }
    assert (Ho : Z.testbit 4294967295 i = false).
    { change 4294967295 with (Z.ones 32). apply Z.ones_spec_high. lia. }
    rewrite Hm, Ho. cbn. now rewrite !andb_false_r.
Qed.

(** X4. [remap_ipv4] is idempotent: mapping its result onto the same CIDR
    again returns that result. *)
Theorem remap_ipv4_idempotent (t : tcpedit_t) (cidr : tcpr_cidr_t) (a r : Z) :
  remap_ipv4 t cidr a = Ok r ->
  remap_ipv4 t cidr r = Ok r.
Proof.
  unfold remap_ipv4.
  destruct (negb (family cidr =? AF_INET)).
  - intros E. injection E as <-. reflexivity.
  - destruct (skip_broadcast t && negb (is_unicast_ipv4 t a)) eqn:Ea.
    + intros E. injection E as <-. now rewrite Ea.
    + unfold shl_u32.
      destruct (shift_count_ok (32 - masklen cidr)) eqn:Hc; [| discriminate].
      cbn [bind]. intros E. injection E as <-.
      match goal with
      | |- context [skip_broadcast t && negb (is_unicast_ipv4 t ?x)] =>
          destruct (skip_broadcast t && negb (is_unicast_ipv4 t x));
          [reflexivity |]
      end.
      do 2 f_equal. unfold ntohl at 1. rewrite htonl_involutive.
      unfold shift_count_ok in Hc. apply andb_true_iff in Hc.
      destruct Hc as [H0 H32]. apply Z.leb_le in H0. apply Z.ltb_lt in H32.
      apply Z.bits_inj'. intros i Hi.
      apply (splice_fixed (htonl (network cidr)) (ntohl a)
                          (32 - masklen cidr) i); lia.
Qed.

(** ** Randomization and the multicast class *)

Lemma byte_ok_mod (x : Z) : (0 <=? x mod 256) && (x mod 256 <? 256) = true.
Proof.
  pose proof (Z.mod_pos_bound x 256 ltac:(lia)) as H.
  apply andb_true_iff. split; [apply Z.leb_le | apply Z.ltb_lt]; lia.
Qed.

Lemma randomize_ipv6_addr_class (t : tcpedit_t) (addr : tcpr_in6_addr) :
  in6_addr_ok addr = true ->
  in6_addr_ok (randomize_ipv6_addr t addr) = true
  /\ is_multicast_ipv6 t (randomize_ipv6_addr t addr)
     = is_multicast_ipv6 t addr.
Proof.
  intros Hok. unfold in6_addr_ok in Hok.
  apply andb_true_iff in Hok. destruct Hok as [Hlen Hall].
  apply Nat.eqb_eq in Hlen.
  do 16 (destruct addr as [| ? addr]; [discriminate Hlen |]).
  destruct addr; [| discriminate Hlen]. clear Hlen.
  cbn [forallb] in Hall. split_bytes Hall.
  unfold randomize_ipv6_addr. cbn [fold_left].
  unfold get32, set32, store32.
  cbn [Nat.mul Nat.add firstn skipn app].
  destruct big_endian; cbn [le_split rev app firstn skipn];
    cbn [is_multicast_ipv6];
    destruct (Z.eqb_spec z 255) as [Hz | Hz];
    cbn [set_first_byte is_multicast_ipv6];
    try (match goal with
         | |- context [if ?x =? 255 then _ else _] =>
             destruct (Z.eqb_spec x 255) as [Hx | Hx]
         end;
         cbn [set_first_byte is_multicast_ipv6]);
    (split;
     [ unfold in6_addr_ok; cbn [length Nat.eqb forallb andb];
       rewrite ?byte_ok_mod; reflexivity
     | try reflexivity; apply Z.eqb_neq; assumption ]).
Qed.

(** X5. For any seed, [randomize_ipv6_addr] returns 16 bytes again, and the
    result is multicast (first byte 0xff) exactly when the argument is. *)
Theorem randomize_ipv6_addr_keeps_class (t : tcpedit_t) (addr : tcpr_in6_addr) :
  in6_addr_ok addr = true ->
  in6_addr_ok (randomize_ipv6_addr t addr) = true
  /\ is_multicast_ipv6 t (randomize_ipv6_addr t addr)
     = is_multicast_ipv6 t addr.
Proof. exact (randomize_ipv6_addr_class t addr). Qed.

(** X6. [randomize_ipv4] returns 1 and the header with both addresses put
    through [randomize_ipv4_addr]: the tests around the two calls change
    nothing, the callee makes the same test. *)
Theorem randomize_ipv4_both_fields (t : tcpedit_t) (h : ipv4_hdr_t) :
  randomize_ipv4 t h
  = (1, set_ip_src (set_ip_dst h (randomize_ipv4_addr t (ip_dst h)))
                   (randomize_ipv4_addr t (ip_src h))).
Proof.
  destruct h as [hl ln off ttl p src dst].
  unfold randomize_ipv4, randomize_ipv4_addr.
  cbn [ip_dst ip_src set_ip_dst set_ip_src ip_hl ip_len ip_off ip_ttl ip_p].
  destruct (skip_broadcast t);
    destruct (is_unicast_ipv4 t dst); cbn [andb orb negb];
    cbn [ip_dst ip_src set_ip_dst set_ip_src ip_hl ip_len ip_off ip_ttl ip_p];
    destruct (is_unicast_ipv4 t src); reflexivity.
Qed.

(** X7. [randomize_ipv6] keeps the multicast class of both addresses, and
    with [skip_broadcast] set a multicast address comes back as it was. *)
Theorem randomize_ipv6_multicast (t : tcpedit_t) (h : ipv6_hdr_t) :
  in6_addr_ok (ip6_src h) = true ->
  in6_addr_ok (ip6_dst h) = true ->
  let h' := snd (randomize_ipv6 t h) in
  is_multicast_ipv6 t (ip6_src h') = is_multicast_ipv6 t (ip6_src h)
  /\ is_multicast_ipv6 t (ip6_dst h') = is_multicast_ipv6 t (ip6_dst h)
  /\ (skip_broadcast t = true ->
      (is_multicast_ipv6 t (ip6_src h) = true -> ip6_src h' = ip6_src h)
      /\ (is_multicast_ipv6 t (ip6_dst h) = true -> ip6_dst h' = ip6_dst h)).
Proof.
  intros Hs Hd.
  destruct (randomize_ipv6_addr_class t _ Hs) as [_ Ks].
  destruct (randomize_ipv6_addr_class t _ Hd) as [_ Kd].
  destruct h as [ln nh hl src dst]. cbn [ip6_src ip6_dst] in *.
  unfold randomize_ipv6.
  cbn [ip6_src ip6_dst set_ip6_src set_ip6_dst ip6_len ip6_nh ip6_hl snd].
  destruct (skip_broadcast t);
    destruct (is_multicast_ipv6 t dst) eqn:Md; cbn [andb orb negb];
    cbn [ip6_src ip6_dst set_ip6_src set_ip6_dst ip6_len ip6_nh ip6_hl];
    destruct (is_multicast_ipv6 t src) eqn:Msrc; cbn [andb orb negb];
    cbn [ip6_src ip6_dst set_ip6_src set_ip6_dst ip6_len ip6_nh ip6_hl];
    rewrite ?Ks, ?Kd, ?Md, ?Msrc;
    repeat split; try reflexivity; try discriminate; intros; try discriminate;
    try reflexivity; congruence.
Qed.

(** ** Checksum drivers: failures and the IPv6 one *)

(** X8. When the layer 4 checksum is attempted and [do_checksum] fails, the
    function returns [TCPEDIT_ERROR] at once: the IP header checksum is not
    recomputed, the memory is what the failed call left. *)
Theorem fix_ipv4_checksums_l4_failure (t : tcpedit_t) (pkthdr : pcap_pkthdr)
  (mem mem1 : ip_region) (ret1 : Z) :
  caplen pkthdr = len pkthdr ->
  Z.land (htons (ip_off (fst mem))) IP_OFFMASK = 0 ->
  do_checksum t mem (ip_p (fst mem))
              (ntohs (ip_len (fst mem)) - Z.shiftl (ip_hl (fst mem)) 2)
  = (ret1, mem1) ->
  ret1 < 0 ->
  fix_ipv4_checksums t pkthdr mem
  = (TCPEDIT_ERROR, mem1,
     [(ip_p (fst mem),
       ntohs (ip_len (fst mem)) - Z.shiftl (ip_hl (fst mem)) 2)]).
Proof.
  intros Hc Ho Hcall Hneg. unfold fix_ipv4_checksums.
  rewrite Hc, Z.eqb_refl, Ho. cbn [Z.eqb andb]. rewrite Hcall.
  replace (ret1 <? 0) with true by (symmetry; apply Z.ltb_lt; exact Hneg).
  reflexivity.
Qed.

(** X10. [fix_ipv6_checksums] calls [do_checksum] once, for the next-header
    protocol, when the packet is whole, whatever its fragmentation; on a
    partial capture it makes no call, leaves the memory alone and returns
    [TCPEDIT_OK]. *)
Theorem fix_ipv6_checksums_calls (t : tcpedit_t) (pkthdr : pcap_pkthdr)
  (mem : ip6_region) :
  (caplen pkthdr <> len pkthdr ->
   fix_ipv6_checksums t pkthdr mem = (TCPEDIT_OK, mem, []))
  /\ (caplen pkthdr = len pkthdr ->
      snd (fix_ipv6_checksums t pkthdr mem)
      = [(ip6_nh (fst mem), htons (ip6_len (fst mem)))]
      /\ snd (fst (fix_ipv6_checksums t pkthdr mem))
         = snd (do_checksum_v6 t mem (ip6_nh (fst mem))
                               (htons (ip6_len (fst mem))))).
Proof.
  unfold fix_ipv6_checksums. split; intros H.
  - apply Z.eqb_neq in H. now rewrite H.
  - rewrite H, Z.eqb_refl.
    destruct (do_checksum_v6 t mem _ _) as [r m1].
    destruct (r <? 0); [split; reflexivity |].
    destruct (r =? TCPEDIT_WARN); split; reflexivity.
Qed.

(** ** TTL rewriting: what a return value of 0 means *)

(** X11. [rewrite_ipv4_ttl] returns 0 or 1; it changes no field other than
    the TTL, and when it returns 0 the header is the one it was given. *)
Theorem rewrite_ipv4_ttl_frame (t : tcpedit_t) (h h' : ipv4_hdr_t) (r : Z) :
  rewrite_ipv4_ttl t (Some h) = Ok (r, Some h') ->
  (r = 0 \/ r = 1)
  /\ h' = set_ip_ttl h (ip_ttl h')
  /\ (r = 0 -> h' = h).
Proof.
  destruct h as [hl ln off ttl p src dst].
  unfold rewrite_ipv4_ttl. cbn [ip_ttl].
  repeat match goal with
         | |- context [if ?c then _ else _] => destruct c
         end;
    intros E; try discriminate E; injection E as <- <-;
    cbn; repeat split; auto; intros; discriminate.
Qed.

(** X12. The IPv6 hop limit is rewritten exactly as the IPv4 TTL: on equal
    current values the two functions return the same code and leave the
    same new value. *)
Theorem rewrite_ipv6_hlim_as_ipv4_ttl (t : tcpedit_t) (h : ipv4_hdr_t)
  (h6 : ipv6_hdr_t) :
  ip_ttl h = ip6_hl h6 ->
  match rewrite_ipv4_ttl t (Some h), rewrite_ipv6_hlim t (Some h6) with
  | Ok (r, Some h'), Ok (r6, Some h6') =>
      r = r6 /\ ip_ttl h' = ip6_hl h6'
  | Exit, Exit => True
  | _, _ => False
  end.
Proof.
  intros E. unfold rewrite_ipv4_ttl, rewrite_ipv6_hlim. rewrite <- E.
  change TCPEDIT_TTL_MODE_OFF with 0.
  repeat match goal with
         | |- context [if ?c then _ else _] => destruct c
         end; cbn; auto.
Qed.

(** ** untrunc_packet: padding, errors, MTU *)

Lemma memset0_spec (buf : list Z) (off n : Z) :
  0 <= off -> 0 <= n -> off + n <= Z.of_nat (length buf) ->
  exists data,
    memset0 buf off n = Ok data
    /\ length data = length buf
    /\ forall i : nat,
         nth i data 0
         = if (off <=? Z.of_nat i) && (Z.of_nat i <? off + n) then 0
           else nth i buf 0.
Proof.
  intros Hoff Hn Hlen. unfold memset0.
  replace ((0 <=? off) && (0 <=? n) && (off + n <=? Z.of_nat (length buf)))
    with true
    by (symmetry; rewrite !andb_true_iff, !Z.leb_le; lia).
  eexists. split; [reflexivity |]. split.
  - rewrite !length_app, length_firstn, repeat_length, length_skipn. lia.
  - intros i.
    assert (Hf : length (firstn (Z.to_nat off) buf) = Z.to_nat off)
      by (rewrite length_firstn; lia).
    destruct (Z.leb_spec off (Z.of_nat i)) as [H1 | H1]; cbn [andb].
    + rewrite app_nth2 by lia. rewrite Hf.
      destruct (Z.ltb_spec (Z.of_nat i) (off + n)) as [H2 | H2].
      * rewrite app_nth1 by (rewrite repeat_length; lia).
        apply nth_repeat.
      * rewrite app_nth2 by (rewrite repeat_length; lia).
        rewrite repeat_length, nth_skipn. f_equal. lia.
    + rewrite app_nth1 by lia. rewrite nth_firstn.
      replace (Nat.ltb i (Z.to_nat off)) with true
        by (symmetry; apply Nat.ltb_lt; lia).
      reflexivity.
Qed.

(** X13. PAD mode on a truncated IP packet ([caplen < len], buffer large
    enough): the function returns 1, [caplen] becomes [len], the bytes of
    the buffer from the old [caplen] up to [len] are zero and every other
    byte of the buffer is as before. The header views overlay the buffer:
    header bytes at or past the old [caplen] are zeroed with the rest. *)
Theorem untrunc_packet_pad_zero_fill (t : tcpedit_t) (st : untrunc_state) :
  fixlen t = TCPEDIT_FIXLEN_PAD ->
  0 <= layer2len t ->
  0 <= caplen (u_pkthdr st) < len (u_pkthdr st) ->
  len (u_pkthdr st) <= Z.of_nat (length (u_pktdata st)) ->
  u_ip_hdr st <> None \/ u_ip6_hdr st <> None ->
  exists data,
    untrunc_packet t st
    = Ok (1, mk_untrunc (mk_pkthdr (len (u_pkthdr st)) (len (u_pkthdr st)))
                        data (u_ip_hdr st) (u_ip6_hdr st))
    /\ length data = length (u_pktdata st)
    /\ forall i : nat,
         nth i data 0
         = if (caplen (u_pkthdr st) <=? Z.of_nat i)
              && (Z.of_nat i <? len (u_pkthdr st))
           then 0 else nth i (u_pktdata st) 0.
Proof.
  intros Hfix Hl2 Hcap Hbuf Hip.
  destruct (memset0_spec (u_pktdata st) (caplen (u_pkthdr st))
              (len (u_pkthdr st) - caplen (u_pkthdr st)))
    as (data & Hset & Hlen & Hnth); try lia.
  exists data. split; [| split; [exact Hlen |]].
  - unfold untrunc_packet. rewrite Hfix.
    replace (caplen (u_pkthdr st) =? len (u_pkthdr st)) with false
      by (symmetry; apply Z.eqb_neq; lia).
    replace (is_null (u_ip_hdr st) && is_null (u_ip6_hdr st)) with false
      by (destruct Hip as [H | H];
          [destruct (u_ip_hdr st) | destruct (u_ip6_hdr st)];
          try congruence; cbn; now rewrite ?andb_false_r).
    cbn [orb andb].
    replace (layer2len t <? 0) with false by (symmetry; apply Z.ltb_ge; lia).
    rewrite Z.eqb_refl.
    replace (len (u_pkthdr st) >? caplen (u_pkthdr st)) with true
      by (symmetry; apply Z.gtb_lt; lia).
    rewrite Hset. reflexivity.
  - intros i. rewrite Hnth.
    replace (caplen (u_pkthdr st)
             + (len (u_pkthdr st) - caplen (u_pkthdr st)))
      with (len (u_pkthdr st)) by lia.
    reflexivity.
Qed.

(** X14. Whenever [untrunc_packet] returns -1 (negative layer 2 length,
    [len < caplen] in PAD mode, unknown fixlen), the packet header, the
    buffer with the headers in it and both header pointers are untouched. *)
Theorem untrunc_packet_error_untouched (t : tcpedit_t) (st st' : untrunc_state) :
  untrunc_packet t st = Ok (-1, st') -> st' = st.
Proof.
  unfold untrunc_packet.
  repeat match goal with
         | |- context [if ?c then _ else _] => destruct c
         | |- context [match u_ip_hdr st with _ => _ end] =>
             destruct (u_ip_hdr st)
         | |- context [match u_ip6_hdr st with _ => _ end] =>
             destruct (u_ip6_hdr st)
         | |- context [memset0 ?a ?b ?c] => destruct (memset0 a b c)
         | |- context [store_u16 ?a ?b ?c] => destruct (store_u16 a b c)
         | _ => progress cbn [bind]
         end;
    intros E; try discriminate E; injection E as <-; reflexivity.
Qed.

(** X15. In PAD and TRUNCATE mode a return value of 1 means the two
    lengths of the packet header agree afterwards. *)
Theorem untrunc_packet_lengths_agree (t : tcpedit_t) (st st' : untrunc_state) :
  fixlen t = TCPEDIT_FIXLEN_PAD \/ fixlen t = TCPEDIT_FIXLEN_TRUNC ->
  untrunc_packet t st = Ok (1, st') ->
  caplen (u_pkthdr st') = len (u_pkthdr st').
Proof.
  intros Hfix. unfold untrunc_packet.
  destruct (((caplen (u_pkthdr st) =? len (u_pkthdr st))
             || (is_null (u_ip_hdr st) && is_null (u_ip6_hdr st)))
            && negb (mtu_truncate t)); [discriminate |].
  destruct (layer2len t <? 0); [discriminate |].
  destruct Hfix as [-> | ->];
    cbn [Z.eqb Pos.eqb TCPEDIT_FIXLEN_PAD TCPEDIT_FIXLEN_TRUNC].
  - destruct (Z.gtb_spec (len (u_pkthdr st)) (caplen (u_pkthdr st))).
    + destruct (memset0 _ _ _); cbn [bind]; try discriminate.
      intros E. injection E as <-. reflexivity.
    + destruct (Z.ltb_spec (len (u_pkthdr st)) (caplen (u_pkthdr st)));
        [discriminate |].
      intros E. injection E as <-. lia.
  - destruct (negb (len (u_pkthdr st) =? caplen (u_pkthdr st)));
      [destruct (u_ip_hdr st); [destruct (store_u16 _ _ _) |] |];
      cbn [bind]; try discriminate;
      intros E; injection E as <-; reflexivity.
Qed.

(** X16. MTU truncation (fixlen neither PAD nor TRUNCATE): with a sound
    layer 2 length the packet that comes back is never longer than
    [mtu + l2len], and a packet that was longer has [len] and [caplen] both
    set to that bound, also when fewer bytes had been captured. *)
Theorem untrunc_packet_mtu_bound (t : tcpedit_t) (st st' : untrunc_state)
  (r : Z) :
  fixlen t <> TCPEDIT_FIXLEN_PAD ->
  fixlen t <> TCPEDIT_FIXLEN_TRUNC ->
  mtu_truncate t = true ->
  0 <= layer2len t -> 0 <= mtu t ->
  mtu t + layer2len t < 4294967296 ->
  untrunc_packet t st = Ok (r, st') ->
  len (u_pkthdr st') <= mtu t + layer2len t
  /\ (mtu t + layer2len t < len (u_pkthdr st) ->
      len (u_pkthdr st') = mtu t + layer2len t
      /\ caplen (u_pkthdr st') = mtu t + layer2len t).
Proof.
  intros Hpad Htrunc Hmtu Hl2 Hm Hbound. unfold untrunc_packet.
  rewrite Hmtu. cbn [negb andb]. rewrite andb_false_r.
  replace (layer2len t <? 0) with false by (symmetry; apply Z.ltb_ge; lia).
  apply Z.eqb_neq in Hpad, Htrunc. rewrite Hpad, Htrunc.
  rewrite !u32_small by lia.
  destruct (Z.gtb_spec (len (u_pkthdr st)) (mtu t + layer2len t)) as [Hgt | Hle].
  - replace (layer2len t + mtu t) with (mtu t + layer2len t) by lia.
    destruct (u_ip_hdr st); [| destruct (u_ip6_hdr st)];
      try destruct (store_u16 _ _ _); cbn [bind]; try discriminate;
      intros E; injection E as <- <-; cbn; lia.
  - intros E. injection E as <- <-. lia.
Qed.

(** ** extract_data: what is returned *)

Lemma read_bytes_length (m : l7mem) (n : nat) :
  forall (p : ptr) (l : list Z), read_bytes m p n = Ok l -> length l = n.
Proof.
  induction n as [| n IH]; intros p l; cbn [read_bytes].
  - intros E. injection E as <-. reflexivity.
  - destruct (deref m p) as [b | |]; cbn [bind]; try discriminate.
    destruct (read_bytes m (ptr_add p 1) n) as [r | |] eqn:Er; cbn [bind];
      try discriminate.
    intros E. injection E as <-. cbn [length]. f_equal. now apply (IH _ _ Er).
Qed.

Lemma skipn_nth_error (l : list Z) :
  forall (k : nat) (b : Z),
    nth_error l k = Some b -> skipn k l = b :: skipn (S k) l.
Proof.
  induction l as [| x l IH]; intros [| k] b E; try discriminate E.
  - cbn in E. injection E as ->. reflexivity.
  - cbn in E. cbn [skipn]. now apply IH.
Qed.

Lemma read_bytes_ipbuff (m : l7mem) (n : nat) :
  forall o : Z,
    0 <= o -> o + Z.of_nat n <= Z.of_nat (length (m_ipbuff m)) ->
    read_bytes m (BufPtr o) n
    = Ok (firstn n (skipn (Z.to_nat o) (m_ipbuff m))).
Proof.
  induction n as [| n IH]; intros o Ho Hlen; cbn [read_bytes].
  - reflexivity.
  - cbn [deref ptr_add]. unfold load8.
    replace (o <? 0) with false by (symmetry; apply Z.ltb_ge; lia).
    destruct (nth_error (m_ipbuff m) (Z.to_nat o)) as [b |] eqn:Eb.
    + cbn [bind]. rewrite IH by lia. cbn [bind].
      replace (Z.to_nat (o + 1)) with (S (Z.to_nat o)) by lia.
      rewrite (skipn_nth_error _ _ _ Eb). reflexivity.
    + apply nth_error_None in Eb. lia.
Qed.

(** X17. Whatever [extract_data] returns, the count is not negative and is
    the number of bytes copied. *)
Theorem extract_data_count (t : tcpedit_t) (pktdata : list Z) (caplen : Z)
  (ipbuff l7data : list Z) (n : Z) :
  extract_data t pktdata caplen ipbuff = Ok (n, l7data) ->
  0 <= n /\ Z.of_nat (length l7data) = n.
Proof.
  unfold extract_data.
  destruct (get_ipv4 pktdata caplen (dlt1 t) (BufPtr 0) ipbuff)
    as [[ip_hdr dataptr] ipbuff'].
  destruct ip_hdr as [ip_hdr |];
    [| intros E; injection E as <- <-; split; reflexivity].
  set (m := mk_l7mem pktdata ipbuff').
  destruct (read_ip_len m ip_hdr) as [iplen | |]; cbn [bind]; try discriminate.
  destruct (read_ip_hl m ip_hdr) as [hl | |]; cbn [bind]; try discriminate.
  destruct (_ <=? 0) eqn:Hpos;
    [intros E; injection E as <- <-; split; reflexivity |].
  destruct (read_ip_p m ip_hdr) as [proto | |]; cbn [bind]; try discriminate.
  match goal with
  | |- context [bind ?r _] => destruct r as [[[dl dp] |] | |] eqn:Er
  end; cbn [bind]; try discriminate;
    [| intros E; injection E as <- <-; split; reflexivity].
  assert (Hdl : 0 < dl).
  { revert Er.
    repeat match goal with
           | |- context [if ?c then _ else _] => destruct c eqn:?
           | |- context [match get_layer4_v4 ?a ?b ?c with _ => _ end] =>
               destruct (get_layer4_v4 a b c)
           | |- context [read_th_off ?a ?b] => destruct (read_th_off a b)
           | _ => progress unfold bind
           end;
      intros E; try discriminate E; injection E as <- _;
      repeat match goal with
             | H : (_ <=? 0) = false |- _ => apply Z.leb_gt in H
             end;
      assumption. }
  destruct (read_bytes m dp (Z.to_nat dl)) as [l | |] eqn:El; cbn [bind];
    try discriminate.
  intros E. injection E as <- <-.
  apply read_bytes_length in El. lia.
Qed.

(** X18. An ICMP packet yields no data: the function returns 0 and copies
    nothing, whatever follows the IP header. *)
Theorem extract_data_icmp (t : tcpedit_t) (pktdata : list Z) (caplen : Z)
  (ipbuff ipbuff' : list Z) (ip_hdr dataptr : ptr) (iplen hl : Z) :
  let m := mk_l7mem pktdata ipbuff' in
  get_ipv4 pktdata caplen (dlt1 t) (BufPtr 0) ipbuff
  = (Some ip_hdr, dataptr, ipbuff') ->
  read_ip_len m ip_hdr = Ok iplen ->
  read_ip_hl m ip_hdr = Ok hl ->
  read_ip_p m ip_hdr = Ok IPPROTO_ICMP ->
  extract_data t pktdata caplen ipbuff = Ok (0, []).
Proof.
  intros m Hget Hlen Hhl Hp.
  unfold extract_data. rewrite Hget. fold m.
  rewrite Hlen. unfold bind at 1. rewrite Hhl. unfold bind at 1.
  destruct (_ <=? 0); [reflexivity |].
  rewrite Hp. reflexivity.
Qed.

(** X19. For TCP the bytes returned are read through [dataptr], which
    starts at the local array [ipbuff], not through the header pointer:
    when [get_ipv4] leaves [dataptr] at the start of [ipbuff], the data are
    the bytes of [ipbuff] from offset IP header length + TCP header length,
    so they are the payload only if [get_ipv4] copied the packet there. *)
Theorem extract_data_tcp_reads_ipbuff (t : tcpedit_t) (pktdata : list Z)
  (caplen : Z) (ipbuff ipbuff' : list Z) (ip_hdr tcp_hdr : ptr)
  (iplen hl off : Z) :
  let m := mk_l7mem pktdata ipbuff' in
  let datalen :=
    (if caplen >? ntohs iplen then ntohs iplen else caplen - l2len t)
    - Z.shiftl hl 2 in
  let n := datalen - Z.shiftl off 2 in
  get_ipv4 pktdata caplen (dlt1 t) (BufPtr 0) ipbuff
  = (Some ip_hdr, BufPtr 0, ipbuff') ->
  read_ip_len m ip_hdr = Ok iplen ->
  read_ip_hl m ip_hdr = Ok hl ->
  read_ip_p m ip_hdr = Ok IPPROTO_TCP ->
  get_layer4_v4 m ip_hdr datalen = Some tcp_hdr ->
  read_th_off m tcp_hdr = Ok off ->
  0 <= hl -> 0 <= off -> 0 < n ->
  Z.shiftl hl 2 + Z.shiftl off 2 + n <= Z.of_nat (length ipbuff') ->
  extract_data t pktdata caplen ipbuff
  = Ok (n, firstn (Z.to_nat n)
                  (skipn (Z.to_nat (Z.shiftl hl 2 + Z.shiftl off 2)) ipbuff')).
Proof.
  intros m datalen n Hget Hlen Hhl Hp Hl4 Hoff Hhl0 Hoff0 Hn Hbuf.
  assert (Hs1 : 0 <= Z.shiftl hl 2) by (apply Z.shiftl_nonneg; exact Hhl0).
  assert (Hs2 : 0 <= Z.shiftl off 2) by (apply Z.shiftl_nonneg; exact Hoff0).
  unfold extract_data. rewrite Hget. fold m.
  rewrite Hlen. unfold bind at 1. rewrite Hhl. unfold bind at 1.
  fold datalen.
  replace (datalen <=? 0) with false
    by (symmetry; apply Z.leb_gt; subst n; lia).
  rewrite Hp. unfold bind at 1. rewrite Z.eqb_refl, Hl4, Hoff.
  unfold bind at 2. fold n.
  replace (n <=? 0) with false by (symmetry; apply Z.leb_gt; exact Hn).
  unfold bind at 1. cbn [ptr_add].
  rewrite read_bytes_ipbuff by (cbn [m_ipbuff m]; lia).
  unfold bind. cbn [m_ipbuff m].
  replace (0 + Z.shiftl hl 2 + Z.shiftl off 2)
    with (Z.shiftl hl 2 + Z.shiftl off 2) by lia.
  reflexivity.
Qed.

(** ** remap_ipv6 on whole bytes, and the IPv6 walker's count *)

Lemma list_set_ok (a : list Z) :
  forall (i : nat) (v : Z),
    (i < length a)%nat ->
    list_set a i v = Some (firstn i a ++ v :: skipn (S i) a).
Proof.
  induction a as [| x a IH]; intros [| i] v H; cbn in H; try lia.
  - reflexivity.
  - cbn [list_set]. rewrite IH by lia. reflexivity.
Qed.

Lemma copy_network_bytes_ok (n : nat) :
  forall (k : nat) (net addr : tcpr_in6_addr),
    (k + n <= length net)%nat -> (k + n <= length addr)%nat ->
    copy_network_bytes n (Z.of_nat k) net addr
    = Ok (firstn k addr ++ firstn n (skipn k net) ++ skipn (k + n) addr).
Proof.
  induction n as [| n IH]; intros k net addr Hnet Haddr;
    cbn [copy_network_bytes].
  - cbn [firstn app]. rewrite Nat.add_0_r, firstn_skipn. reflexivity.
  - unfold load8, store8.
    replace (Z.of_nat k <? 0) with false by (symmetry; apply Z.ltb_ge; lia).
    rewrite Nat2Z.id.
    destruct (nth_error net k) as [b |] eqn:Eb;
      [| apply nth_error_None in Eb; lia].
    cbn [bind]. rewrite list_set_ok by lia. cbn [bind].
    replace (Z.of_nat k + 1) with (Z.of_nat (S k)) by lia.
    rewrite IH
      by (rewrite ?length_app, ?length_firstn; cbn [length];
          rewrite ?length_skipn; lia).
    f_equal.
    rewrite (skipn_nth_error _ _ _ Eb), firstn_cons.
    assert (Hk : length (firstn k addr) = k) by (rewrite length_firstn; lia).
    rewrite firstn_app, Hk, firstn_all2 by lia.
    replace (S k - k)%nat with 1%nat by lia.
    rewrite firstn_cons, firstn_O.
    rewrite skipn_app, Hk, (skipn_all2 (firstn k addr)) by lia.
    replace (S k + n - k)%nat with (S n) by lia.
    rewrite skipn_cons, skipn_skipn.
    replace (n + S k)%nat with (k + S n)%nat by lia.
    rewrite <- !app_assoc. reflexivity.
Qed.

(** X20. With an IPv6 target whose prefix length is a whole number [j] of
    bytes, [remap_ipv6] returns 1 and the address made of the first [j]
    bytes of the network followed by the remaining bytes of the original. *)
Theorem remap_ipv6_whole_bytes (t : tcpedit_t) (cidr : tcpr_cidr_t)
  (addr : tcpr_in6_addr) (j : nat) :
  family cidr = AF_INET6 ->
  skip_broadcast t && is_multicast_ipv6 t addr = false ->
  masklen cidr = 8 * Z.of_nat j ->
  (j <= length (network6 cidr))%nat -> (j <= length addr)%nat ->
  remap_ipv6 t cidr addr
  = Ok (1, firstn j (network6 cidr) ++ skipn j addr).
Proof.
  intros Hf Hs Hm Hnet Haddr. unfold remap_ipv6.
  rewrite Hf, Z.eqb_refl, Hs, Hm. cbn [negb].
  replace (Z.quot (8 * Z.of_nat j) 8) with (Z.of_nat j)
    by (rewrite Z.mul_comm, Z.quot_mul; lia).
  replace (Z.rem (8 * Z.of_nat j) 8) with 0
    by (rewrite Z.mul_comm, Z.rem_mul; lia).
  rewrite Nat2Z.id.
  change 0 with (Z.of_nat 0) at 1.
  rewrite copy_network_bytes_ok by (cbn; lia).
  reflexivity.
Qed.

Lemma remap_ipv6_declines (t : tcpedit_t) (cidr : tcpr_cidr_t)
  (addr : tcpr_in6_addr) :
  family cidr <> AF_INET6
  \/ skip_broadcast t && is_multicast_ipv6 t addr = true ->
  remap_ipv6 t cidr addr = Ok (0, addr).
Proof.
  intros [H | H]; unfold remap_ipv6.
  - apply Z.eqb_neq in H. now rewrite H.
  - rewrite H. now destruct (negb (family cidr =? AF_INET6)).
Qed.

Lemma cidr6_walk_unfold (t : tcpedit_t) (c1 c2 : tcpr_cidrmap_t)
  (st : walk6_state) :
  cidr6_walk t c1 c2 st
  = match walk6_body t c1 c2 st with
    | Ok st' =>
        if negb (diddst6 st' && didsrc6 st') then
          match next c1, next c2 with
          | None, None => Ok st'
          | Some n1, None => cidr6_walk t n1 c2 st'
          | None, Some n2 => cidr6_walk t c1 n2 st'
          | Some n1, Some n2 => cidr6_walk t n1 n2 st'
          end
        else Ok st'
    | Fault => Fault
    | Exit => Exit
    end.
Proof. destruct c1, c2; reflexivity. Qed.

(** X21. [rewrite_ipv6l3] counts a field as rewritten as soon as a "from"
    CIDR contains it, also when [remap_ipv6] then declines (target of
    another family, or a multicast address under [skip_broadcast]): with
    both heads matching and both remaps declining it returns 2 and the
    header unchanged. *)
Theorem rewrite_ipv6l3_counts_declined (t : tcpedit_t) (h : ipv6_hdr_t)
  (direction : tcpr_dir_t) (c1 c2 : tcpr_cidrmap_t) :
  srcipmap t = None -> dstipmap t = None ->
  match direction with
  | TCPR_DIR_C2S => (cidrmap1 t, cidrmap2 t)
  | TCPR_DIR_S2C => (cidrmap2 t, cidrmap1 t)
  end = (Some c1, Some c2) ->
  ip6_in_cidr (from c2) (ip6_dst h) = true ->
  ip6_in_cidr (from c1) (ip6_src h) = true ->
  family (to c2) <> AF_INET6
  \/ skip_broadcast t && is_multicast_ipv6 t (ip6_dst h) = true ->
  family (to c1) <> AF_INET6
  \/ skip_broadcast t && is_multicast_ipv6 t (ip6_src h) = true ->
  rewrite_ipv6l3 t h direction = Ok (2, h).
Proof.
  intros Hsm Hdm Hchains Hd Hs Dd Ds.
  unfold rewrite_ipv6l3, apply_ip6maps. rewrite Hsm, Hdm. cbn [bind].
  assert (Hc1 : cidrmap1 t <> None)
    by (destruct direction; inversion Hchains; congruence).
  destruct (cidrmap1 t) as [c |] eqn:E1; [clear Hc1 | congruence].
  rewrite Hchains, cidr6_walk_unfold. unfold walk6_body.
  cbn [diddst6 didsrc6 w6_hdr negb andb].
  rewrite Hd, (remap_ipv6_declines t _ _ Dd). cbn [bind snd].
  destruct h as [ln nh hl src dst].
  cbn [ip6_src ip6_dst set_ip6_dst set_ip6_src ip6_len ip6_nh ip6_hl
       diddst6 didsrc6 w6_hdr negb andb] in *.
  rewrite Hs, (remap_ipv6_declines t _ _ Ds). reflexivity.
Qed.

(** ** ARP: which bytes can change *)

Lemma list_set_frame (a : list Z) :
  forall (i : nat) (v : Z) (r : list Z),
    list_set a i v = Some r ->
    length r = length a
    /\ forall k : nat, k <> i -> nth k r 0 = nth k a 0.
Proof.
  induction a as [| x a IH]; intros i v r E.
  - destruct i; discriminate E.
  - destruct i as [| i]; cbn [list_set] in E.
    + injection E as <-. split; [reflexivity |].
      intros [| k] Hk; [congruence | reflexivity].
    + destruct (list_set a i v) as [r' |] eqn:Er; [| discriminate E].
      injection E as <-. destruct (IH _ _ _ Er) as [Hl Hn].
      split; [cbn; now rewrite Hl |].
      intros [| k] Hk; [reflexivity |]. cbn [nth]. apply Hn. congruence.
Qed.

Lemma store8_frame (buf buf' : list Z) (i v : Z) :
  store8 buf i v = Ok buf' ->
  length buf' = length buf
  /\ forall k : nat, Z.of_nat k <> i -> nth k buf' 0 = nth k buf 0.
Proof.
  unfold store8. destruct (Z.ltb_spec i 0); [discriminate |].
  destruct (list_set buf (Z.to_nat i) v) as [r |] eqn:Er; [| discriminate].
  intros E. injection E as <-.
  destruct (list_set_frame _ _ _ _ Er) as [Hl Hn].
  split; [exact Hl |]. intros k Hk. apply Hn. lia.
Qed.

Lemma store_bytes_frame (l : list Z) :
  forall (off : Z) (buf buf' : list Z),
    store_bytes buf off l = Ok buf' ->
    length buf' = length buf
    /\ forall k : nat,
         ~ (off <= Z.of_nat k < off + Z.of_nat (length l)) ->
         nth k buf' 0 = nth k buf 0.
Proof.
  induction l as [| b l IH]; intros off buf buf'; cbn [store_bytes].
  - intros E. injection E as <-. split; reflexivity.
  - destruct (store8 buf off b) as [buf1 | |] eqn:E1; cbn [bind];
      try discriminate.
    intros E. destruct (IH _ _ _ E) as [Hl Hn].
    destruct (store8_frame _ _ _ _ E1) as [Hl1 Hn1].
    split; [congruence |].
    intros k Hk. cbn [length] in Hk.
    rewrite Hn by lia. apply Hn1. lia.
Qed.

Lemma store32_length (v : Z) : length (store32 v) = 4%nat.
Proof. unfold store32. destruct big_endian; reflexivity. Qed.

Lemma store_u32_frame (buf buf' : list Z) (off v : Z) :
  store_u32 buf off v = Ok buf' -> same_outside [off] buf buf'.
Proof.
  unfold store_u32. intros E.
  destruct (store_bytes_frame _ _ _ _ E) as [Hl Hn].
  rewrite store32_length in Hn.
  split; [exact Hl |]. intros k Hk. apply Hn.
  specialize (Hk off (or_introl eq_refl)). unfold in_window in Hk. lia.
Qed.

Lemma same_outside_refl (ws : list Z) (buf : list Z) : same_outside ws buf buf.
Proof. split; reflexivity. Qed.

Lemma same_outside_trans (ws : list Z) (b1 b2 b3 : list Z) :
  same_outside ws b1 b2 -> same_outside ws b2 b3 -> same_outside ws b1 b3.
Proof.
  intros [L1 N1] [L2 N2]. split; [congruence |].
  intros k Hk. rewrite N2, N1 by assumption. reflexivity.
Qed.

Lemma same_outside_weaken (ws ws' : list Z) (b1 b2 : list Z) :
  (forall o, In o ws -> In o ws') ->
  same_outside ws b1 b2 -> same_outside ws' b1 b2.
Proof.
  intros Hin [L N]. split; [exact L |].
  intros k Hk. apply N. intros o Ho. apply Hk, Hin, Ho.
Qed.

Lemma same_outside_member (ws : list Z) (o : Z) (b1 b2 : list Z) :
  In o ws -> same_outside [o] b1 b2 -> same_outside ws b1 b2.
Proof.
  intros Hin. apply same_outside_weaken. intros o' [<- | []]. exact Hin.
Qed.

Lemma load8_nth (buf : list Z) (i b : Z) :
  load8 buf i = Ok b -> 0 <= i /\ nth (Z.to_nat i) buf 0 = b.
Proof.
  unfold load8. destruct (Z.ltb_spec i 0); [discriminate |].
  destruct (nth_error buf (Z.to_nat i)) as [x |] eqn:E; [| discriminate].
  intros Hb. injection Hb as <-. split; [lia |].
  now apply nth_error_nth.
Qed.

Lemma bytes_nth_nonneg (l : list Z) :
  forallb (fun b => (0 <=? b) && (b <? 256)) l = true ->
  forall k : nat, 0 <= nth k l 0.
Proof.
  induction l as [| x l IH]; intros H k.
  - destruct k; cbn; lia.
  - cbn [forallb] in H. apply andb_true_iff in H. destruct H as [Hx Hl].
    apply andb_true_iff in Hx. destruct Hx as [Hx _]. apply Z.leb_le in Hx.
    destruct k; cbn [nth]; [exact Hx | now apply IH].
Qed.

(** The two stores of [randomize_iparp] are four bytes wide each, at the
    offsets computed from [ar_hln] and [ar_pln]. *)
Lemma randomize_iparp_windows (t : tcpedit_t) (pkthdr : pcap_pkthdr)
  (pktdata data' : list Z) (datalink r : Z) :
  forallb (fun b => (0 <=? b) && (b <? 256)) pktdata = true ->
  randomize_iparp t pkthdr pktdata datalink = Ok (r, data') ->
  let arp := get_l2len pktdata (caplen pkthdr) datalink in
  let hln := nth (Z.to_nat (arp + 4)) pktdata 0 in
  let pln := nth (Z.to_nat (arp + 5)) pktdata 0 in
  let ip1 := arp + sizeof_arp_hdr_t + hln in
  let ip2 := ip1 + (pln + hln) in
  r = 1 /\ same_outside [ip1; ip2] pktdata data'.
Proof.
  intros Hbytes E arp hln0 pln0 ip1 ip2. revert E.
  unfold randomize_iparp. fold arp.
  destruct (arp_is_ipv4_request_or_reply pktdata arp) as [[|] | |];
    cbn [bind]; try discriminate.
  2: { intros E. injection E as <- <-. split; [reflexivity |].
       apply same_outside_refl. }
  destruct (load8 pktdata (arp + 4)) as [hln | |] eqn:Eh; cbn [bind];
    try discriminate.
  destruct (load_u32 pktdata _) as [a1 | |]; cbn [bind]; try discriminate.
  destruct (store_u32 pktdata _ _) as [data1 | |] eqn:S1; cbn [bind];
    try discriminate.
  destruct (load8 data1 (arp + 5)) as [pln | |] eqn:Ep; cbn [bind];
    try discriminate.
  destruct (load8 data1 (arp + 4)) as [hln' | |] eqn:Eh'; cbn [bind];
    try discriminate.
  destruct (load_u32 data1 _) as [a2 | |]; cbn [bind]; try discriminate.
  destruct (store_u32 data1 _ _) as [data2 | |] eqn:S2; cbn [bind];
    try discriminate.
  intros E. injection E as <- <-.
  apply load8_nth in Eh, Ep, Eh'.
  destruct Eh as [Hi4 Eh], Ep as [Hi5 Ep], Eh' as [_ Eh'].
  apply store_u32_frame in S1, S2.
  assert (Hh0 : 0 <= hln) by (rewrite <- Eh; now apply bytes_nth_nonneg).
  destruct S1 as [L1 N1].
  assert (Hout : forall i : Z, 0 <= i < arp + sizeof_arp_hdr_t ->
                   nth (Z.to_nat i) data1 0 = nth (Z.to_nat i) pktdata 0).
  { intros i Hi. apply N1. intros o [<- | []]. unfold in_window. lia. }
  unfold sizeof_arp_hdr_t in *.
  rewrite Hout in Ep, Eh' by lia.
  assert (hln = hln0) by (subst hln0; congruence).
  assert (hln' = hln0) by (subst hln0; congruence).
  assert (pln = pln0) by (subst pln0; congruence).
  subst hln hln' pln. fold ip1 in S2, N1. fold ip2 in S2.
  split; [reflexivity |].
  apply (same_outside_trans _ _ data1).
  - apply (same_outside_weaken [ip1]); [| split; assumption].
    intros o [<- | []]. now left.
  - apply (same_outside_weaken [ip2]); [| exact S2].
    intros o [<- | []]. right. now left.
Qed.

(** X22. [randomize_iparp] returns 1 in every case, keeps the length of the
    packet, and changes at most the four bytes at the offset of the sender
    protocol address and the four bytes at the offset of the target
    protocol address. Nothing before the sender protocol address changes:
    the link header, the ARP header and the sender hardware address are as
    before. The code never looks at [ar_pln] before it stores four bytes:
    the target hardware address is untouched when [ar_pln] is at least 4,
    as it is for IPv4. A packet that is no IPv4 request or reply is
    returned as it is, still with 1. *)
Theorem randomize_iparp_frame (t : tcpedit_t) (pkthdr : pcap_pkthdr)
  (pktdata data' : list Z) (datalink r : Z) :
  forallb (fun b => (0 <=? b) && (b <? 256)) pktdata = true ->
  randomize_iparp t pkthdr pktdata datalink = Ok (r, data') ->
  let arp := get_l2len pktdata (caplen pkthdr) datalink in
  let hln := nth (Z.to_nat (arp + 4)) pktdata 0 in
  let pln := nth (Z.to_nat (arp + 5)) pktdata 0 in
  let ip1 := arp + sizeof_arp_hdr_t + hln in
  let ip2 := ip1 + (pln + hln) in
  r = 1
  /\ same_outside [ip1; ip2] pktdata data'
  /\ (forall k : nat, Z.of_nat k < ip1 -> nth k data' 0 = nth k pktdata 0)
  /\ (4 <= pln ->
      forall k : nat,
        ip1 + pln <= Z.of_nat k < ip2 -> nth k data' 0 = nth k pktdata 0).
Proof.
  intros Hbytes E arp hln pln ip1 ip2.
  destruct (randomize_iparp_windows t pkthdr pktdata data' datalink r
              Hbytes E) as [Hr [Hl Hn]].
  fold arp hln pln ip1 ip2 in Hn.
  assert (Hh : 0 <= hln) by now apply bytes_nth_nonneg.
  assert (Hp : 0 <= pln) by now apply bytes_nth_nonneg.
  split; [exact Hr |]. split; [split; assumption |]. split.
  - intros k Hk. apply Hn.
    intros o [<- | [<- | []]]; unfold in_window; subst ip2; lia.
  - intros Hpln k Hk. apply Hn.
    intros o [<- | [<- | []]]; unfold in_window; lia.
Qed.

Lemma arp_remap_at_frame (t : tcpedit_t) (done fl : bool)
  (map : tcpr_cidrmap_t) (buf buf' : list Z) (ip : Z) :
  arp_remap_at t done map buf ip = Ok (buf', fl) ->
  same_outside [ip] buf buf'
  /\ (done = true -> fl = true)
  /\ (fl = false -> buf' = buf).
Proof.
  unfold arp_remap_at. destruct done.
  - intros E. injection E as <- <-.
    repeat split; auto using same_outside_refl; intros; discriminate.
  - destruct (load_u32 buf ip) as [a | |]; cbn [bind]; try discriminate.
    destruct (ip_in_cidr (from map) a).
    + destruct (remap_ipv4 t (to map) a) as [v | |]; cbn [bind];
        try discriminate.
      destruct (store_u32 buf ip v) as [b | |] eqn:S; cbn [bind];
        try discriminate.
      intros E. injection E as <- <-. apply store_u32_frame in S.
      repeat split; try apply S; intros; discriminate.
    + intros E. injection E as <- <-.
      repeat split; auto using same_outside_refl; intros; discriminate.
Qed.

Lemma arp_walk_body_frame (t : tcpedit_t) (ip1 ip2 : Z)
  (c1 c2 : tcpr_cidrmap_t) (st st' : arp_state) :
  arp_walk_body t ip1 ip2 c1 c2 st = Ok st' ->
  same_outside [ip1; ip2] (a_buf st) (a_buf st')
  /\ (a_didsrc st = true -> a_didsrc st' = true)
  /\ (a_diddst st = true -> a_diddst st' = true)
  /\ (a_didsrc st' = false -> a_diddst st' = false -> a_buf st' = a_buf st).
Proof.
  unfold arp_walk_body.
  destruct (load_u16 (a_buf st) 6) as [op | |]; cbn [bind]; try discriminate.
  destruct (ntohs op =? ARPOP_REQUEST);
    (destruct (arp_remap_at t (a_diddst st) c2 (a_buf st) _)
       as [[b1 f1] | |] eqn:E1; cbn [bind fst snd]; try discriminate;
     destruct (arp_remap_at t (a_didsrc st) c1 b1 _)
       as [[b2 f2] | |] eqn:E2; cbn [bind fst snd]; try discriminate;
     intros E; injection E as <-; cbn [a_buf a_didsrc a_diddst];
     apply arp_remap_at_frame in E1, E2;
     destruct E1 as (S1 & D1 & U1), E2 as (S2 & D2 & U2);
     split; [| split; [exact D2 | split; [exact D1 |]]];
     [ apply (same_outside_trans _ _ b1);
       [ eapply same_outside_member; [| exact S1]; cbn; auto
       | eapply same_outside_member; [| exact S2]; cbn; auto ]
     | intros H2 H1; rewrite (U2 H2); exact (U1 H1) ]).
Qed.

Lemma arp_walk_unfold (t : tcpedit_t) (ip1 ip2 : Z) (c1 c2 : tcpr_cidrmap_t)
  (st : arp_state) :
  arp_walk t ip1 ip2 c1 c2 st
  = match arp_walk_body t ip1 ip2 c1 c2 st with
    | Ok st' =>
        if negb (a_diddst st' && a_didsrc st') then
          match next c1, next c2 with
          | None, None => Ok st'
          | Some n1, None => arp_walk t ip1 ip2 n1 c2 st'
          | None, Some n2 => arp_walk t ip1 ip2 c1 n2 st'
          | Some n1, Some n2 => arp_walk t ip1 ip2 n1 n2 st'
          end
        else Ok st'
    | Fault => Fault
    | Exit => Exit
    end.
Proof. destruct c1, c2; reflexivity. Qed.

Lemma arp_walk_frame (t : tcpedit_t) (ip1 ip2 : Z) (n : nat) :
  forall (c1 c2 : tcpr_cidrmap_t) (st st' : arp_state),
    (chain_length c1 + chain_length c2 <= n)%nat ->
    arp_walk t ip1 ip2 c1 c2 st = Ok st' ->
    same_outside [ip1; ip2] (a_buf st) (a_buf st')
    /\ (a_didsrc st = true -> a_didsrc st' = true)
    /\ (a_diddst st = true -> a_diddst st' = true)
    /\ (a_didsrc st' = false -> a_diddst st' = false ->
        a_buf st' = a_buf st).
Proof.
  induction n as [| n IH]; intros c1 c2 st st' Hn.
  - rewrite (chain_length_unfold c1) in Hn. cbn in Hn. inversion Hn.
  - rewrite arp_walk_unfold.
    rewrite (chain_length_unfold c1), (chain_length_unfold c2) in Hn.
    destruct (arp_walk_body t ip1 ip2 c1 c2 st) as [st1 | |] eqn:Eb;
      try discriminate.
    apply arp_walk_body_frame in Eb. destruct Eb as (S1 & Ds1 & Dd1 & U1).
    assert (Hstop : Ok st1 = Ok st' ->
              same_outside [ip1; ip2] (a_buf st) (a_buf st')
              /\ (a_didsrc st = true -> a_didsrc st' = true)
              /\ (a_diddst st = true -> a_diddst st' = true)
              /\ (a_didsrc st' = false -> a_diddst st' = false ->
                  a_buf st' = a_buf st))
      by (intros E; injection E as <-; auto).
    assert (Hstep : forall d1 d2,
              (chain_length d1 + chain_length d2 <= n)%nat ->
              arp_walk t ip1 ip2 d1 d2 st1 = Ok st' ->
              same_outside [ip1; ip2] (a_buf st) (a_buf st')
              /\ (a_didsrc st = true -> a_didsrc st' = true)
              /\ (a_diddst st = true -> a_diddst st' = true)
              /\ (a_didsrc st' = false -> a_diddst st' = false ->
                  a_buf st' = a_buf st)).
    { intros d1 d2 Hd E. destruct (IH _ _ _ _ Hd E) as (S2 & Ds2 & Dd2 & U2).
      split; [| split; [auto | split; [auto |]]].
      - apply (same_outside_trans _ _ (a_buf st1)); [exact S1 | exact S2].
      - intros Hs Hd'. rewrite (U2 Hs Hd'). apply U1.
        + destruct (a_didsrc st1); [| reflexivity].
          rewrite Ds2 in Hs by reflexivity. discriminate.
        + destruct (a_diddst st1); [| reflexivity].
          rewrite Dd2 in Hd' by reflexivity. discriminate. }
    destruct (negb (a_diddst st1 && a_didsrc st1)); [| exact Hstop].
    destruct (next c1) as [n1 |] eqn:N1; destruct (next c2) as [n2 |] eqn:N2;
      try exact Hstop; apply Hstep;
      rewrite ?(chain_length_unfold c1), ?(chain_length_unfold c2), ?N1, ?N2;
      lia.
Qed.

(** X23. [rewrite_iparp] returns 0, 1 or 2, keeps the length of the buffer,
    and can only change the four bytes of the sender and of the target
    protocol address; when it returns 0 the buffer is byte for byte the one
    it was given. *)
Theorem rewrite_iparp_frame (t : tcpedit_t) (arp arp' : list Z)
  (cache_mode : option tcpr_dir_t) (r : Z) :
  rewrite_iparp t arp cache_mode = Ok (r, arp') ->
  let hln := nth 4 arp 0 in
  let pln := nth 5 arp 0 in
  let ip1 := sizeof_arp_hdr_t + hln in
  let ip2 := ip1 + (pln + hln) in
  (r = 0 \/ r = 1 \/ r = 2)
  /\ same_outside [ip1; ip2] arp arp'
  /\ (r = 0 -> arp' = arp).
Proof.
  unfold rewrite_iparp.
  assert (Hnone : Ok (0, arp) = Ok (r, arp') ->
            (r = 0 \/ r = 1 \/ r = 2)
            /\ same_outside
                 [sizeof_arp_hdr_t + nth 4 arp 0;
                  sizeof_arp_hdr_t + nth 4 arp 0
                  + (nth 5 arp 0 + nth 4 arp 0)] arp arp'
            /\ (r = 0 -> arp' = arp))
    by (intros E; injection E as <- <-;
        split; [auto | split; [apply same_outside_refl | reflexivity]]).
  destruct (match cache_mode with
            | Some TCPR_DIR_C2S => (cidrmap1 t, cidrmap2 t)
            | Some TCPR_DIR_S2C => (cidrmap2 t, cidrmap1 t)
            | None => (None, None)
            end) as [[c1 |] [c2 |]]; try exact Hnone.
  destruct (arp_is_ipv4_request_or_reply arp 0) as [[|] | |]; cbn [bind];
    try discriminate; try exact Hnone.
  destruct (load8 arp 4) as [hln | |] eqn:Eh; cbn [bind]; try discriminate.
  destruct (load8 arp 5) as [pln | |] eqn:Ep; cbn [bind]; try discriminate.
  apply load8_nth in Eh, Ep. destruct Eh as [_ Eh], Ep as [_ Ep].
  change (Z.to_nat 4) with 4%nat in Eh. change (Z.to_nat 5) with 5%nat in Ep.
  rewrite Eh, Ep.
  destruct (arp_walk t _ _ c1 c2 _) as [st | |] eqn:Ew; cbn [bind];
    try discriminate.
  intros E. injection E as <- <-.
  apply (arp_walk_frame t _ _ (chain_length c1 + chain_length c2)) in Ew;
    [| apply Nat.le_refl].
  cbn [a_buf a_didsrc a_diddst] in Ew. destruct Ew as (S & _ & _ & U).
  split; [| split; [exact S |]].
  - destruct (a_didsrc st), (a_diddst st); cbn; auto.
  - destruct (a_didsrc st), (a_diddst st); cbn; intros H; try discriminate H.
    now apply U.
Qed.

(** ** The parts of the truncation, remap and checksum paths that hold *)

(** X9. For a prefix length from 1 to 32 [remap_ipv4] returns the address
    made of the leading [masklen] bits of the network and the remaining
    bits of the original (bit 31 is the first bit on the wire). *)
Theorem remap_ipv4_prefix_splice (t : tcpedit_t) (cidr : tcpr_cidr_t)
  (original : Z) :
  family cidr = AF_INET ->
  1 <= masklen cidr <= 32 ->
  skip_broadcast t = false \/ is_unicast_ipv4 t original = true ->
  exists r,
    remap_ipv4 t cidr original = Ok r /\
    forall i, 0 <= i < 32 ->
      Z.testbit (ntohl r) i
      = if i <? 32 - masklen cidr
        then Z.testbit (ntohl original) i
        else Z.testbit (htonl (network cidr)) i.
Proof. exact (remap_ipv4_splice t cidr original). Qed.

(** ** untrunc_packet: the store to the total length field *)

Lemma store8_in_bounds (buf : list Z) (i v : Z) :
  0 <= i < Z.of_nat (length buf) ->
  exists buf', store8 buf i v = Ok buf' /\ nth (Z.to_nat i) buf' 0 = v.
Proof.
  intros Hi. unfold store8.
  replace (i <? 0) with false by (symmetry; apply Z.ltb_ge; lia).
  rewrite list_set_ok by lia.
  eexists. split; [reflexivity |].
  rewrite app_nth2 by (rewrite length_firstn; lia).
  rewrite length_firstn.
  replace (Z.to_nat i - Nat.min (Z.to_nat i) (length buf))%nat with 0%nat
    by lia.
  reflexivity.
Qed.

(** What the host stores for [htons x] is [x] in network order, on either
    kind of host. *)
Lemma store_u16_htons (buf : list Z) (off x : Z) :
  0 <= x < 65536 ->
  store_u16 buf off (htons x)
  = (buf1 <- store8 buf off (x / 256) ;; store8 buf1 (off + 1) (x mod 256)).
Proof.
  intros Hx. unfold store_u16, htons, u16, bswap16.
  rewrite (Z.mod_small x 65536) by exact Hx.
  destruct big_endian; [reflexivity |].
  assert (Hhi : 0 <= x / 256 < 256).
  { split; [apply Z.div_pos; lia | apply Z.div_lt_upper_bound; lia]. }
  rewrite (Z.mod_small (x / 256) 256) by exact Hhi.
  replace (x mod 256 * 256 + x / 256) with (x / 256 + 256 * (x mod 256))
    by lia.
  rewrite byte_mod, byte_div by exact Hhi. reflexivity.
Qed.

Lemma store_u16_htons_bytes (buf : list Z) (off x : Z) :
  0 <= x < 65536 ->
  0 <= off -> off + 2 <= Z.of_nat (length buf) ->
  exists data,
    store_u16 buf off (htons x) = Ok data
    /\ length data = length buf
    /\ nth (Z.to_nat off) data 0 = x / 256
    /\ nth (Z.to_nat (off + 1)) data 0 = x mod 256
    /\ forall k : nat,
         Z.of_nat k <> off -> Z.of_nat k <> off + 1 ->
         nth k data 0 = nth k buf 0.
Proof.
  intros Hx Hoff Hlen. rewrite store_u16_htons by exact Hx.
  destruct (store8_in_bounds buf off (x / 256)) as (buf1 & E1 & V1);
    [lia |].
  destruct (store8_frame _ _ _ _ E1) as [L1 N1].
  destruct (store8_in_bounds buf1 (off + 1) (x mod 256)) as (data & E2 & V2);
    [lia |].
  destruct (store8_frame _ _ _ _ E2) as [L2 N2].
  exists data. rewrite E1. cbn [bind].
  split; [exact E2 |]. split; [congruence |].
  split; [rewrite N2 by lia; exact V1 |].
  split; [exact V2 |].
  intros k Hk0 Hk1. rewrite N2, N1 by assumption. reflexivity.
Qed.

(** With an IPv4 header inside the buffer: [len] becomes [caplen] and the
    total length field, bytes 2 and 3 of the header, holds
    [caplen - l2len] in network order. *)
Lemma untrunc_packet_trunc_ipv4 (t : tcpedit_t) (st : untrunc_state)
  (ip : Z) :
  fixlen t = TCPEDIT_FIXLEN_TRUNC ->
  caplen (u_pkthdr st) <> len (u_pkthdr st) ->
  u_ip_hdr st = Some ip ->
  0 <= layer2len t ->
  0 <= ip -> ip + 4 <= Z.of_nat (length (u_pktdata st)) ->
  let v := (caplen (u_pkthdr st) - layer2len t) mod 65536 in
  exists data,
    untrunc_packet t st
    = Ok (1, mk_untrunc
               (mk_pkthdr (caplen (u_pkthdr st)) (caplen (u_pkthdr st)))
               data (u_ip_hdr st) (u_ip6_hdr st))
    /\ length data = length (u_pktdata st)
    /\ nth (Z.to_nat (ip + 2)) data 0 = v / 256
    /\ nth (Z.to_nat (ip + 3)) data 0 = v mod 256
    /\ forall k : nat,
         Z.of_nat k <> ip + 2 -> Z.of_nat k <> ip + 3 ->
         nth k data 0 = nth k (u_pktdata st) 0.
Proof.
  intros Hfix Hne Hip Hl2 Hip0 Hbuf v.
  destruct (store_u16_htons_bytes (u_pktdata st) (ip + 2) v)
    as (data & E & L & V0 & V1 & N);
    [subst v; apply Z.mod_pos_bound; lia | lia | lia |].
  exists data.
  replace (ip + 2 + 1) with (ip + 3) in V1, N by lia.
  split; [| repeat split; assumption].
  unfold untrunc_packet.
  rewrite Hfix, Hip. cbn [is_null andb orb].
  apply Z.eqb_neq in Hne. rewrite Hne. cbn [orb andb].
  replace (layer2len t <? 0) with false by (symmetry; apply Z.ltb_ge; lia).
  cbn [Z.eqb Pos.eqb TCPEDIT_FIXLEN_TRUNC TCPEDIT_FIXLEN_PAD].
  rewrite Z.eqb_sym, Hne. cbn [negb]. unfold ipv4_ip_len_offset.
  replace (htons (u32 (caplen (u_pkthdr st) - layer2len t))) with (htons v).
  - rewrite E. reflexivity.
  - unfold htons, u16, u32. subst v.
    change 4294967296 with (65536 * 65536).
    rewrite !(Z.mod_mod_divide _ (65536 * 65536) 65536)
      by (exists 65536; reflexivity).
    rewrite Z.mod_mod by lia. reflexivity.
Qed.

(** X24. TRUNCATE mode on a packet whose IPv4 header lies inside the buffer
    and whose [len] differs from [caplen]: the function returns 1, [len]
    becomes [caplen], and the two bytes of the header's total length field
    hold [caplen - l2len] (modulo 65536) in network order, high byte first,
    whatever the byte order of the host. No other byte of the buffer
    changes. *)
Theorem untrunc_packet_truncate_ipv4 (t : tcpedit_t) (st : untrunc_state)
  (ip : Z) :
  fixlen t = TCPEDIT_FIXLEN_TRUNC ->
  caplen (u_pkthdr st) <> len (u_pkthdr st) ->
  u_ip_hdr st = Some ip ->
  0 <= layer2len t ->
  0 <= ip -> ip + 4 <= Z.of_nat (length (u_pktdata st)) ->
  let v := (caplen (u_pkthdr st) - layer2len t) mod 65536 in
  exists data,
    untrunc_packet t st
    = Ok (1, mk_untrunc
               (mk_pkthdr (caplen (u_pkthdr st)) (caplen (u_pkthdr st)))
               data (u_ip_hdr st) (u_ip6_hdr st))
    /\ length data = length (u_pktdata st)
    /\ nth (Z.to_nat (ip + 2)) data 0 = v / 256
    /\ nth (Z.to_nat (ip + 3)) data 0 = v mod 256
    /\ forall k : nat,
         Z.of_nat k <> ip + 2 -> Z.of_nat k <> ip + 3 ->
         nth k data 0 = nth k (u_pktdata st) 0.
Proof. exact (untrunc_packet_trunc_ipv4 t st ip). Qed.

(** X25. On a whole packet that is no later fragment the first
    [do_checksum] call of [fix_ipv4_checksums] is the layer 4 one: for the
    protocol of the header, over the total length less four times the
    header length. *)
Theorem fix_ipv4_checksums_l4_call (t : tcpedit_t) (pkthdr : pcap_pkthdr)
  (mem : ip_region) :
  caplen pkthdr = len pkthdr ->
  Z.land (htons (ip_off (fst mem))) IP_OFFMASK = 0 ->
  exists rest,
    snd (fix_ipv4_checksums t pkthdr mem)
    = (ip_p (fst mem),
       ntohs (ip_len (fst mem)) - Z.shiftl (ip_hl (fst mem)) 2) :: rest.
Proof. exact (fix_ipv4_checksums_l4_first t pkthdr mem). Qed.

End EditPacket.

(** ** Evaluations on concrete inputs *)

(** The two examples of the comment above [remap_ipv4]. *)
Lemma remap_ipv4_example_8 (be : bool) :
  remap_ipv4 be tcpedit_off (cidr4 be 10 0 0 0 8) (dotted_quad be 192 168 55 123)
  = Ok (dotted_quad be 10 168 55 123).
Proof. destruct be; reflexivity. Qed.

Lemma remap_ipv4_example_24 (be : bool) :
  remap_ipv4 be tcpedit_off (cidr4 be 10 150 9 0 24)
             (dotted_quad be 192 168 55 123)
  = Ok (dotted_quad be 10 150 9 123).
Proof. destruct be; reflexivity. Qed.

(** On a whole number of bytes [remap_ipv6] works: 2001:db8::1 onto
    fd00:1234::/32 is fd00:1234::1. *)
Lemma remap_ipv6_example_32 :
  remap_ipv6 tcpedit_off (cidr6 [253; 0; 18; 52] 32) addr6_doc
  = Ok (1, [253; 0; 18; 52; 0; 0; 0; 0; 0; 0; 0; 0; 0; 0; 0; 1]).
Proof. reflexivity. Qed.

(** C1 (code defect). The claim covers every prefix length, so also /0,
    where all 32 bits of the original should survive. There the code
    evaluates [0xffffffff << 32] on a 32-bit operand, which has no defined
    result. *)
Theorem remap_ipv4_prefix0_undefined (be : bool) :
  remap_ipv4 be tcpedit_off (cidr4 be 0 0 0 0 0) (dotted_quad be 192 168 55 123)
  = Fault.
Proof. destruct be; reflexivity. Qed.

(** C2 (code defect). Target fc00::/7, address 2001:db8::1: the byte to
    splice is byte 0, the claim makes it [(0xfc & 0xfe) | (0x20 & 0x01)].
    The code overwrites [k] with the mask -2, then shifts by [8 - k = 10]
    and by [k = -2], and indexes the address with [i = 0x20 & -2 = 32];
    no byte is spliced. *)
Theorem remap_ipv6_fc00_7_undefined :
  remap_ipv6 tcpedit_off (cidr6 [252] 7) addr6_doc = Fault.
Proof. reflexivity. Qed.

(** C3 (code defect). [--srcipmap 192.168.0.0/16:[2001:db8::]/32] and a
    packet from 192.168.55.123: the source address is not left alone, it
    becomes 0.0.0.0, the 0 that [remap_ipv4] returns for the family
    mismatch. *)
Theorem rewrite_ipv4l3_family_mismatch_zeroes (be : bool) :
  let m := mk_cidrmap (cidr4 be 192 168 0 0 16) (cidr6 [32; 1; 13; 184] 32)
                      None in
  let h := hdr4 be (dotted_quad be 192 168 55 123) (dotted_quad be 10 0 0 1) in
  rewrite_ipv4l3 be (ip_in_cidr_model be)
                 (with_ipmaps tcpedit_off (Some m) None) h TCPR_DIR_C2S
  = Ok (0, set_ip_src h (dotted_quad be 0 0 0 0))
  /\ ip_src h <> dotted_quad be 0 0 0 0.
Proof. destruct be; split; (reflexivity || discriminate). Qed.

(** C4 (code defect). 224.0.0.0 has the big-endian value 3758096384, and
    the test in [is_unicast_ipv4] is a strict [>]: with [skip_broadcast]
    set and seed 1 the address is randomized to 224.0.0.1. *)
Theorem randomize_ipv4_addr_224_changed (be : bool) :
  ntohl be (dotted_quad be 224 0 0 0) = 3758096384
  /\ randomize_ipv4_addr be (with_seed tcpedit_off 1 true)
                         (dotted_quad be 224 0 0 0)
     = dotted_quad be 224 0 0 1
  /\ dotted_quad be 224 0 0 1 <> dotted_quad be 224 0 0 0.
Proof. destruct be; repeat split; (reflexivity || discriminate). Qed.

(** C5 (code defect). TRUNCATE mode, an IPv6 packet ([ip_hdr] null,
    [ip6_hdr] at offset 14 of the buffer) with caplen 40 and len 60: the
    store to [ip_hdr->ip_len] goes through the null pointer. *)
Theorem untrunc_packet_trunc_ipv6_null_store (be : bool) :
  untrunc_packet be (fun _ => 14)
                 (with_fixlen tcpedit_off TCPEDIT_FIXLEN_TRUNC)
                 (mk_untrunc (mk_pkthdr 40 60) (repeat 0 60%nat) None
                             (Some 14))
  = Fault.
Proof. destruct be; reflexivity. Qed.

(** C6 (code defect). For the GRE frame (protocol 47) the function returns
    4 bytes, and they are the first four bytes of the IP header, not the
    four bytes after it. *)
Theorem extract_data_unknown_proto_copies_header (be : bool) (ipbuff : list Z) :
  extract_data be get_ipv4_ether get_layer4_after tcpedit_off gre_frame 38
               ipbuff
  = Ok (4, [69; 0; 0; 24])
  /\ firstn 4 (skipn (14 + 20) gre_frame) = [222; 173; 190; 239].
Proof. destruct be; split; reflexivity. Qed.

(** ** Instances of the general theorems *)

Lemma rewrite_ipv4l3_unequal_chains_witness :
  rewrite_ipv4l3 false (ip_in_cidr_model false)
    (with_cidrmaps tcpedit_off (Some (chain_p1 false)) (Some (chain_s1 false)))
    (hdr4 false (dotted_quad false 10 2 3 4) (dotted_quad false 192 168 55 123))
    TCPR_DIR_C2S
  = Ok (2, hdr4 false (dotted_quad false 172 17 3 4)
                (dotted_quad false 10 200 55 123)).
Proof.
  apply (rewrite_ipv4l3_unequal_chains false (ip_in_cidr_model false)
           (with_cidrmaps tcpedit_off (Some (chain_p1 false))
                          (Some (chain_s1 false)))
           (hdr4 false (dotted_quad false 10 2 3 4)
                 (dotted_quad false 192 168 55 123))
           (hdr4 false (dotted_quad false 10 2 3 4)
                 (dotted_quad false 192 168 55 123))
           TCPR_DIR_C2S (chain_p1 false) (chain_p2 false) (chain_s1 false)
           (dotted_quad false 172 17 3 4) (dotted_quad false 10 200 55 123));
    reflexivity.
Defined.

Lemma ttl_rewrite_saturates_witness :
  (exists h' : ipv4_hdr_t,
     rewrite_ipv4_ttl (with_ttl tcpedit_off TCPEDIT_TTL_MODE_SUB 10)
                      (Some (set_ip_ttl (hdr4 false 0 0) 5))
     = Ok (1, Some h')
     /\ ip_ttl h' = 1)
  /\ (exists h6' : ipv6_hdr_t,
        rewrite_ipv6_hlim (with_ttl tcpedit_off TCPEDIT_TTL_MODE_ADD 10)
                          (Some (set_ip6_hl (hdr6 false) 250))
        = Ok (1, Some h6')
        /\ ip6_hl h6' = 255)
  /\ rewrite_ipv4_ttl (with_ttl tcpedit_off TCPEDIT_TTL_MODE_SET 5)
                      (Some (set_ip_ttl (hdr4 false 0 0) 5))
     = Ok (0, Some (set_ip_ttl (hdr4 false 0 0) 5)).
Proof.
  pose proof (ttl_rewrite_saturates tcpedit_off 10
                (set_ip_ttl (hdr4 false 0 0) 5)
                (set_ip6_hl (hdr6 false) 250)
                ltac:(lia) ltac:(simpl; lia) ltac:(simpl; lia)) as H.
  cbv zeta in H.
  destruct H as [(h' & _ & E & _ & V & _) [(_ & h6' & _ & E6 & _ & V6 & _) _]].
  split; [exists h'; split; [exact E | exact V] |].
  split; [exists h6'; split; [exact E6 | exact V6] |].
  apply (ttl_rewrite_saturates tcpedit_off 5
           (set_ip_ttl (hdr4 false 0 0) 5) (hdr6 false)
           ltac:(lia) ltac:(simpl; lia) ltac:(simpl; lia)).
Defined.

Lemma fix_ipv4_checksums_l3_only_witness :
  fix_ipv4_checksums false (fun _ m _ _ => (0, m)) tcpedit_off
                     (mk_pkthdr 40 60) (hdr4 false 0 0, [])
  = (TCPEDIT_OK, (hdr4 false 0 0, []), [(IPPROTO_IP, 40)]).
Proof.
  apply (fix_ipv4_checksums_l3_only false (fun _ m _ _ => (0, m)) tcpedit_off
           (mk_pkthdr 40 60) (hdr4 false 0 0, [])).
  left. simpl. lia.
Defined.

Lemma randomize_seed0_identity_witness :
  randomize_ipv4_addr false tcpedit_off (dotted_quad false 192 168 55 123)
  = dotted_quad false 192 168 55 123
  /\ randomize_ipv6_addr false tcpedit_off addr6_doc = addr6_doc.
Proof.
  apply (randomize_seed0_identity false tcpedit_off
           (dotted_quad false 192 168 55 123) addr6_doc).
  - reflexivity.
  - vm_compute. split; [discriminate | reflexivity].
  - reflexivity.
Defined.

(** ** Instances of the further properties *)

Lemma rewrite_ipv4l3_first_match_witness :
  rewrite_ipv4l3 false (ip_in_cidr_model false)
    (with_cidrmaps tcpedit_off (Some (chain_p1 false)) (Some (chain_s1 false)))
    (hdr4 false (dotted_quad false 10 2 3 4) (dotted_quad false 172 30 1 1))
    TCPR_DIR_C2S
  = Ok (1, hdr4 false (dotted_quad false 172 17 3 4)
                (dotted_quad false 172 30 1 1)).
Proof.
  rewrite (rewrite_ipv4l3_first_match false (ip_in_cidr_model false)
             (with_cidrmaps tcpedit_off (Some (chain_p1 false))
                            (Some (chain_s1 false)))
             (hdr4 false (dotted_quad false 10 2 3 4)
                   (dotted_quad false 172 30 1 1))
             (hdr4 false (dotted_quad false 10 2 3 4)
                   (dotted_quad false 172 30 1 1))
             TCPR_DIR_C2S (chain_p1 false) (chain_s1 false)
             eq_refl eq_refl).
  reflexivity.
Defined.

Lemma rewrite_ipv4l3_no_match_witness :
  rewrite_ipv4l3 false (ip_in_cidr_model false)
    (with_cidrmaps tcpedit_off (Some (chain_p1 false)) (Some (chain_s1 false)))
    (hdr4 false (dotted_quad false 172 20 1 1) (dotted_quad false 172 30 1 1))
    TCPR_DIR_S2C
  = Ok (0, hdr4 false (dotted_quad false 172 20 1 1)
                (dotted_quad false 172 30 1 1)).
Proof.
  apply (rewrite_ipv4l3_no_match false (ip_in_cidr_model false)
           (with_cidrmaps tcpedit_off (Some (chain_p1 false))
                          (Some (chain_s1 false)))
           (hdr4 false (dotted_quad false 172 20 1 1)
                 (dotted_quad false 172 30 1 1))
           (hdr4 false (dotted_quad false 172 20 1 1)
                 (dotted_quad false 172 30 1 1))
           TCPR_DIR_S2C (chain_s1 false) (chain_p1 false));
    reflexivity.
Defined.

Lemma rewrite_ipv4l3_srcipmap_not_counted_witness :
  rewrite_ipv4l3 false (ip_in_cidr_model false)
    (with_ipmaps tcpedit_off
       (Some (mk_cidrmap (cidr4 false 192 168 0 0 16) (cidr4 false 10 0 0 0 8)
                         None))
       None)
    (hdr4 false (dotted_quad false 192 168 55 123) (dotted_quad false 10 0 0 1))
    TCPR_DIR_C2S
  = Ok (0, hdr4 false (dotted_quad false 10 168 55 123)
                (dotted_quad false 10 0 0 1)).
Proof.
  apply (rewrite_ipv4l3_srcipmap_not_counted false (ip_in_cidr_model false)
           (with_ipmaps tcpedit_off
              (Some (mk_cidrmap (cidr4 false 192 168 0 0 16)
                                (cidr4 false 10 0 0 0 8) None))
              None)
           (hdr4 false (dotted_quad false 192 168 55 123)
                 (dotted_quad false 10 0 0 1))
           TCPR_DIR_C2S
           (mk_cidrmap (cidr4 false 192 168 0 0 16) (cidr4 false 10 0 0 0 8)
                       None)
           (dotted_quad false 10 168 55 123));
    reflexivity.
Defined.

Lemma remap_ipv4_idempotent_witness :
  remap_ipv4 false tcpedit_off (cidr4 false 10 0 0 0 8)
             (dotted_quad false 10 168 55 123)
  = Ok (dotted_quad false 10 168 55 123).
Proof.
  apply (remap_ipv4_idempotent false tcpedit_off (cidr4 false 10 0 0 0 8)
           (dotted_quad false 192 168 55 123)
           (dotted_quad false 10 168 55 123)).
  reflexivity.
Defined.

Lemma randomize_ipv6_addr_keeps_class_witness :
  in6_addr_ok
    (randomize_ipv6_addr false (with_seed tcpedit_off 12345 false)
                         addr6_all_nodes) = true
  /\ is_multicast_ipv6 (with_seed tcpedit_off 12345 false)
       (randomize_ipv6_addr false (with_seed tcpedit_off 12345 false)
                            addr6_all_nodes)
     = is_multicast_ipv6 (with_seed tcpedit_off 12345 false) addr6_all_nodes.
Proof.
  apply (randomize_ipv6_addr_keeps_class false
           (with_seed tcpedit_off 12345 false) addr6_all_nodes).
  reflexivity.
Defined.

Lemma randomize_ipv6_multicast_witness :
  ip6_dst (snd (randomize_ipv6 false (with_seed tcpedit_off 12345 true)
                               hdr6_multicast))
  = addr6_all_nodes.
Proof.
  pose proof (randomize_ipv6_multicast false
                (with_seed tcpedit_off 12345 true) hdr6_multicast
                eq_refl eq_refl) as H.
  cbv zeta in H. destruct H as (_ & _ & H).
  destruct (H eq_refl) as [_ Hd]. apply Hd. reflexivity.
Defined.

Lemma fix_ipv4_checksums_l4_failure_witness :
  fix_ipv4_checksums false
    (fun _ m p _ => if p =? IPPROTO_IP then (0, m) else (-1, m))
    tcpedit_off (mk_pkthdr 40 40) (hdr4 false 0 0, [])
  = (TCPEDIT_ERROR, (hdr4 false 0 0, []), [(IPPROTO_UDP, 20)]).
Proof.
  apply (fix_ipv4_checksums_l4_failure false
           (fun _ m p _ => if p =? IPPROTO_IP then (0, m) else (-1, m))
           tcpedit_off (mk_pkthdr 40 40) (hdr4 false 0 0, [])
           (hdr4 false 0 0, []) (-1));
    [reflexivity | reflexivity | reflexivity | lia].
Defined.

Lemma remap_ipv4_prefix_splice_witness :
  exists r,
    remap_ipv4 false tcpedit_off (cidr4 false 10 0 0 0 8)
               (dotted_quad false 192 168 55 123) = Ok r /\
    forall i, 0 <= i < 32 ->
      Z.testbit (ntohl false r) i
      = if i <? 32 - 8
        then Z.testbit (ntohl false (dotted_quad false 192 168 55 123)) i
        else Z.testbit (htonl false (dotted_quad false 10 0 0 0)) i.
Proof.
  apply (remap_ipv4_prefix_splice false tcpedit_off (cidr4 false 10 0 0 0 8)
           (dotted_quad false 192 168 55 123));
    [reflexivity | simpl; lia | left; reflexivity].
Defined.

Lemma rewrite_ipv4_ttl_frame_witness :
  (1 = 0 \/ 1 = 1)
  /\ set_ip_ttl (hdr4 false 0 0) 255
     = set_ip_ttl (set_ip_ttl (hdr4 false 0 0) 250) 255
  /\ (1 = 0 -> set_ip_ttl (hdr4 false 0 0) 255
               = set_ip_ttl (hdr4 false 0 0) 250).
Proof.
  apply (rewrite_ipv4_ttl_frame (with_ttl tcpedit_off TCPEDIT_TTL_MODE_ADD 10)
           (set_ip_ttl (hdr4 false 0 0) 250)
           (set_ip_ttl (hdr4 false 0 0) 255) 1).
  reflexivity.
Defined.

Lemma rewrite_ipv6_hlim_as_ipv4_ttl_witness :
  match rewrite_ipv4_ttl (with_ttl tcpedit_off TCPEDIT_TTL_MODE_SUB 10)
                         (Some (hdr4 false 0 0)),
        rewrite_ipv6_hlim (with_ttl tcpedit_off TCPEDIT_TTL_MODE_SUB 10)
                          (Some (hdr6 false)) with
  | Ok (r, Some h'), Ok (r6, Some h6') => r = r6 /\ ip_ttl h' = ip6_hl h6'
  | Exit, Exit => True
  | _, _ => False
  end.
Proof.
  apply (rewrite_ipv6_hlim_as_ipv4_ttl
           (with_ttl tcpedit_off TCPEDIT_TTL_MODE_SUB 10)
           (hdr4 false 0 0) (hdr6 false)).
  reflexivity.
Defined.

Lemma untrunc_packet_pad_zero_fill_witness :
  exists data,
    untrunc_packet false (fun _ => 14)
      (with_fixlen tcpedit_off TCPEDIT_FIXLEN_PAD)
      (mk_untrunc (mk_pkthdr 40 60) (repeat 9 64%nat) (Some 14) None)
    = Ok (1, mk_untrunc (mk_pkthdr 60 60) data (Some 14) None)
    /\ length data = length (repeat 9 64%nat)
    /\ forall i : nat,
         nth i data 0
         = if (40 <=? Z.of_nat i) && (Z.of_nat i <? 60) then 0
           else nth i (repeat 9 64%nat) 0.
Proof.
  apply (untrunc_packet_pad_zero_fill false (fun _ => 14)
           (with_fixlen tcpedit_off TCPEDIT_FIXLEN_PAD)
           (mk_untrunc (mk_pkthdr 40 60) (repeat 9 64%nat) (Some 14) None));
    [reflexivity | lia | simpl; lia | simpl; lia | left; discriminate].
Defined.

Lemma untrunc_packet_error_untouched_witness :
  mk_untrunc (mk_pkthdr 60 40) (repeat 9 64%nat) (Some 14) None
  = mk_untrunc (mk_pkthdr 60 40) (repeat 9 64%nat) (Some 14) None.
Proof.
  apply (untrunc_packet_error_untouched false (fun _ => 14)
           (with_fixlen tcpedit_off TCPEDIT_FIXLEN_PAD)
           (mk_untrunc (mk_pkthdr 60 40) (repeat 9 64%nat) (Some 14) None)).
  reflexivity.
Defined.

Lemma untrunc_packet_lengths_agree_witness :
  caplen (u_pkthdr
            (mk_untrunc (mk_pkthdr 40 40)
               (repeat 9 16%nat ++ [0; 26] ++ repeat 9 46%nat)
               (Some 14) None))
  = len (u_pkthdr
           (mk_untrunc (mk_pkthdr 40 40)
              (repeat 9 16%nat ++ [0; 26] ++ repeat 9 46%nat)
              (Some 14) None)).
Proof.
  apply (untrunc_packet_lengths_agree false (fun _ => 14)
           (with_fixlen tcpedit_off TCPEDIT_FIXLEN_TRUNC)
           (mk_untrunc (mk_pkthdr 40 60) (repeat 9 64%nat) (Some 14) None));
    [right; reflexivity | reflexivity].
Defined.

Lemma untrunc_packet_mtu_bound_witness :
  1514 <= 1500 + 14
  /\ (1500 + 14 < 2000 -> 1514 = 1500 + 14 /\ 1514 = 1500 + 14).
Proof.
  apply (untrunc_packet_mtu_bound false (fun _ => 14)
           (with_mtu tcpedit_off 1500)
           (mk_untrunc (mk_pkthdr 100 2000) (repeat 9 64%nat) (Some 14) None)
           (mk_untrunc (mk_pkthdr 1514 1514)
                       (repeat 9 16%nat ++ [5; 220] ++ repeat 9 46%nat)
                       (Some 14) None)
           1);
    [discriminate | discriminate | reflexivity | lia | simpl; lia
    | simpl; lia | reflexivity].
Defined.

Lemma extract_data_count_witness :
  0 <= 4 /\ Z.of_nat (length [69; 0; 0; 24]) = 4.
Proof.
  apply (extract_data_count false get_ipv4_ether get_layer4_after tcpedit_off
           gre_frame 38 [] [69; 0; 0; 24] 4).
  reflexivity.
Defined.

Lemma extract_data_icmp_witness :
  extract_data false get_ipv4_ether get_layer4_after tcpedit_off icmp_frame 42
               []
  = Ok (0, []).
Proof.
  apply (extract_data_icmp false get_ipv4_ether get_layer4_after tcpedit_off
           icmp_frame 42 [] [] (PktPtr 14) (BufPtr 0) 7168 5);
    reflexivity.
Defined.

Lemma extract_data_tcp_reads_ipbuff_witness :
  extract_data false get_ipv4_ether get_layer4_after tcpedit_off tcp_frame 58
               (repeat 7 64%nat)
  = Ok (4, [7; 7; 7; 7]).
Proof.
  apply (extract_data_tcp_reads_ipbuff false get_ipv4_ether get_layer4_after
           tcpedit_off tcp_frame 58 (repeat 7 64%nat) (repeat 7 64%nat)
           (PktPtr 14) (PktPtr 34) 11264 5 5);
    try reflexivity; simpl; lia.
Defined.

Lemma remap_ipv6_whole_bytes_witness :
  remap_ipv6 tcpedit_off (cidr6 [253; 0; 18; 52] 32) addr6_doc
  = Ok (1, [253; 0; 18; 52; 0; 0; 0; 0; 0; 0; 0; 0; 0; 0; 0; 1]).
Proof.
  apply (remap_ipv6_whole_bytes tcpedit_off (cidr6 [253; 0; 18; 52] 32)
           addr6_doc 4%nat);
    try reflexivity; simpl; lia.
Defined.

Lemma rewrite_ipv6l3_counts_declined_witness :
  rewrite_ipv6l3 (fun _ _ => true)
    (with_cidrmaps (with_seed tcpedit_off 0 true)
       (Some (mk_cidrmap (cidr6 [255] 8) (cidr6 [255; 5] 16) None))
       (Some (mk_cidrmap (cidr6 [255] 8) (cidr6 [255; 5] 16) None)))
    hdr6_multicast TCPR_DIR_C2S
  = Ok (2, hdr6_multicast).
Proof.
  apply (rewrite_ipv6l3_counts_declined (fun _ _ => true)
           (with_cidrmaps (with_seed tcpedit_off 0 true)
              (Some (mk_cidrmap (cidr6 [255] 8) (cidr6 [255; 5] 16) None))
              (Some (mk_cidrmap (cidr6 [255] 8) (cidr6 [255; 5] 16) None)))
           hdr6_multicast TCPR_DIR_C2S
           (mk_cidrmap (cidr6 [255] 8) (cidr6 [255; 5] 16) None)
           (mk_cidrmap (cidr6 [255] 8) (cidr6 [255; 5] 16) None));
    try reflexivity; right; reflexivity.
Defined.

Lemma randomize_iparp_frame_witness :
  exists data',
    randomize_iparp false (fun _ _ _ => 14) (with_seed tcpedit_off 1 false)
                    (mk_pkthdr 42 42) arp_frame 1
    = Ok (1, data')
    /\ same_outside [28; 38] arp_frame data'.
Proof.
  eexists. split; [vm_compute; reflexivity |].
  pose proof (randomize_iparp_frame false (fun _ _ _ => 14)
                (with_seed tcpedit_off 1 false) (mk_pkthdr 42 42) arp_frame
                _ 1 1 eq_refl eq_refl) as H.
  cbv zeta in H. exact (proj1 (proj2 H)).
Defined.

Lemma rewrite_iparp_frame_witness :
  exists arp',
    rewrite_iparp false (ip_in_cidr_model false)
      (with_cidrmaps tcpedit_off (Some (chain_p1 false)) (Some (chain_s1 false)))
      arp_request (Some TCPR_DIR_C2S)
    = Ok (1, arp')
    /\ same_outside [14; 24] arp_request arp'.
Proof.
  eexists. split; [vm_compute; reflexivity |].
  pose proof (rewrite_iparp_frame false (ip_in_cidr_model false)
                (with_cidrmaps tcpedit_off (Some (chain_p1 false))
                               (Some (chain_s1 false)))
                arp_request _ (Some TCPR_DIR_C2S) 1 eq_refl) as H.
  cbv zeta in H. exact (proj1 (proj2 H)).
Defined.

Lemma untrunc_packet_truncate_ipv4_witness :
  exists data,
    untrunc_packet false (fun _ => 14)
      (with_fixlen tcpedit_off TCPEDIT_FIXLEN_TRUNC)
      (mk_untrunc (mk_pkthdr 40 60) (repeat 9 64%nat) (Some 14) None)
    = Ok (1, mk_untrunc (mk_pkthdr 40 40) data (Some 14) None)
    /\ length data = 64%nat
    /\ nth 16 data 0 = 0
    /\ nth 17 data 0 = 26
    /\ forall k : nat,
         Z.of_nat k <> 16 -> Z.of_nat k <> 17 ->
         nth k data 0 = nth k (repeat 9 64%nat) 0.
Proof.
  apply (untrunc_packet_truncate_ipv4 false (fun _ => 14)
           (with_fixlen tcpedit_off TCPEDIT_FIXLEN_TRUNC)
           (mk_untrunc (mk_pkthdr 40 60) (repeat 9 64%nat) (Some 14) None)
           14);
    [reflexivity | simpl; lia | reflexivity | lia | lia | simpl; lia].
Defined.

Lemma fix_ipv4_checksums_l4_call_witness :
  exists rest,
    snd (fix_ipv4_checksums false (fun _ m _ _ => (0, m)) tcpedit_off
           (mk_pkthdr 40 40) (hdr4 false 0 0, []))
    = (IPPROTO_UDP, 20) :: rest.
Proof.
  apply (fix_ipv4_checksums_l4_call false (fun _ m _ _ => (0, m)) tcpedit_off
           (mk_pkthdr 40 40) (hdr4 false 0 0, []));
    reflexivity.
Defined.
